(** * OpenPond SDK: the HTTP clients (polling and event-stream variants)

    A shallow embedding of the two [OpenPondSDK] classes of the repository:

    - the polling client ([Module Polling], the class with [startPolling]
      under [src/p2p]), which registers the agent and then polls
      [GET /messages] on an interval, keeping a high-watermark cursor
      [lastMessageTimestamp];
    - the push client ([Module Push], [src/sdk.ts]), which registers the
      agent and then subscribes to [GET /messages/stream], filtering the
      inbound events by recipient.

    Conventions of the embedding.

    - A JavaScript [number] holding a timestamp is an integer, a [Z] (no
      [NaN], no fractions); [Math.max] is [Z.max].  A [string] is a
      [string]; it is truthy when non-empty.
    - The object's mutable fields live in a [State] record, threaded through
      a small state/exception/trace monad [M].  Every observable effect (an
      HTTP request issued through the axios instance, a callback invocation,
      a write of the watermark field, [setInterval]/[clearInterval], opening
      or closing an [EventSource]) is appended to a trace of [Event]s, in
      program order.
    - The remote service is the environment: each operation that awaits one
      HTTP request takes the server's answer as an argument.
    - The callbacks registered with [onMessage]/[onError] have the types
      [(message: Message) => void] and [(error: Error) => void]; they are
      client code, identified here by a [CallbackId], and every invocation
      is recorded in the trace and returns normally.
    - Response bodies have the shape their TypeScript type declares.
    - One operation runs at a time (the single cooperative scheduler of the
      host runtime); an [await] is the point where the answer is consumed. *)

From Stdlib Require Import ZArith List String Bool Lia.
Import ListNotations.

Local Open Scope string_scope.
Local Open Scope list_scope.
Local Open Scope Z_scope.

(** ** Data model ([types.ts]) *)

Record OpenPondConfig := mkConfig {
  apiUrl : string;
  privateKey : string;
  agentName : option string;
  apiKey : option string
}.

Record Message := mkMessage {
  messageId : string;
  fromAgentId : string;
  toAgentId : string;
  content : string;
  timestamp : Z;
  conversationId : option string;
  replyTo : option string
}.

Record Agent := mkAgent {
  address : string;
  name : string;
  metadata : string;
  reputation : Z;
  isActive : bool;
  isBlocked : bool;
  registrationTime : Z
}.

(** [SendMessageOptions]: the two optional keys spread into the body of
    [POST /messages]. *)
Record SendMessageOptions := mkOptions {
  optConversationId : option string;
  optReplyTo : option string
}.

(** ** JavaScript values the code tests *)

(** Truthiness of a string: every string but the empty one. *)
Definition truthy (s : string) : bool := negb (String.eqb s "").

(** [a || b] on an optional number: [undefined] and [0] are falsy. *)
Definition num_or (a : option Z) (b : Z) : Z :=
  match a with
  | Some v => if v =? 0 then b else v
  | None => b
  end.

(** What [JSON.parse] can return, as far as the stream listener looks at
    it: an object with the fields of a [Message]; [null], on which a
    property access throws; or any other value, whose [toAgentId] is
    [undefined]. *)
Inductive Json :=
| JMessage (message : Message)
| JNull
| JOther.

(** Values that can be thrown.  [AxiosError status] is the error axios
    rejects with; [status] is [error.response?.status], absent when no
    response was received.  [ErrorObj] is any other [Error] instance, and
    [NonError] a thrown value that is not an [Error]. *)
Inductive Exn :=
| AxiosError (status : option Z)
| ErrorObj (message : string)
| NonError (value : string).

Definition isAxiosError (e : Exn) : bool :=
  match e with
  | AxiosError _ => true
  | _ => false
  end.

Definition instanceofError (e : Exn) : bool :=
  match e with
  | NonError _ => false
  | _ => true
  end.

(** [error.response?.status === 409] *)
Definition responseStatusIs (code : Z) (e : Exn) : bool :=
  match e with
  | AxiosError (Some s) => s =? code
  | _ => false
  end.

(** ** HTTP through the axios instance *)

Inductive Method := GET | POST.

Inductive Payload :=
| RegisterBody (privateKey : string) (name : option string)
| MessageBody (toAgentId content privateKey : string)
              (options : option SendMessageOptions)
| MessagesParams (privateKey : string) (since : Z)
| NoPayload.

Record Request := mkRequest {
  method : Method;
  url : string;
  headers : list (string * string);
  payload : Payload
}.

(** What the remote service does with one request: it answers with a status
    code and a body, or no response arrives at all (transport failure). *)
Inductive ServerAnswer (A : Type) :=
| Answer (status : Z) (data : A)
| NoResponse.
Arguments Answer {A} status data.
Arguments NoResponse {A}.

(** axios' default [validateStatus]: a response resolves iff it is 2xx. *)
Definition validateStatus (status : Z) : bool :=
  (200 <=? status) && (status <? 300).

Inductive Result (A : Type) :=
| Return (a : A)
| Throw (e : Exn).
Arguments Return {A} a.
Arguments Throw {A} e.

(** How the adapter settles the request promise. *)
Definition settle {A} (ans : ServerAnswer A) : Result A :=
  match ans with
  | Answer status data =>
      if validateStatus status then Return data
      else Throw (AxiosError (Some status))
  | NoResponse => Throw (AxiosError None)
  end.

(** A failing request: non-2xx, or transport failure. *)
Definition is_failure {A} (ans : ServerAnswer A) : bool :=
  match ans with
  | Answer status _ => negb (validateStatus status)
  | NoResponse => true
  end.

(** The error a failing request rejects with. *)
Definition rejection {A} (ans : ServerAnswer A) : Exn :=
  match ans with
  | Answer status _ => AxiosError (Some status)
  | NoResponse => AxiosError None
  end.

(** Headers given to [axios.create]. *)
Definition defaultHeaders (config : OpenPondConfig) : list (string * string) :=
  ("Content-Type", "application/json")
    :: match apiKey config with
       | Some k => if truthy k then [("X-API-Key", k)] else []
       | None => []
       end.

(** ** Effects *)

Definition CallbackId := nat.

Inductive Event :=
| EvHttp (r : Request)
| EvMessage (cb : CallbackId) (m : Message)
| EvError (cb : CallbackId) (e : Exn)
| EvWatermark (v : Z)
| EvSetInterval (id : nat) (ms : Z)
| EvClearInterval (id : nat)
| EvOpenStream (id : nat) (url : string) (headers : list (string * string))
| EvCloseStream (id : nat).

Definition Trace := list Event.

(** State, exception and trace monad over the client state [S]. *)
Definition M (S A : Type) : Type := S -> Result A * S * Trace.

Definition ret {S A} (a : A) : M S A := fun s => (Return a, s, []).

Definition throw {S A} (e : Exn) : M S A := fun s => (Throw e, s, []).

Definition bind {S A B} (m : M S A) (k : A -> M S B) : M S B :=
  fun s =>
    match m s with
    | (Return a, s1, t1) =>
        match k a s1 with
        | (r, s2, t2) => (r, s2, t1 ++ t2)
        end
    | (Throw e, s1, t1) => (Throw e, s1, t1)
    end.

(** [try { m } catch (error) { handler error }] *)
Definition try_catch {S A} (m : M S A) (handler : Exn -> M S A) : M S A :=
  fun s =>
    match m s with
    | (Return a, s1, t1) => (Return a, s1, t1)
    | (Throw e, s1, t1) =>
        match handler e s1 with
        | (r, s2, t2) => (r, s2, t1 ++ t2)
        end
    end.

Definition emit {S} (ev : Event) : M S unit := fun s => (Return tt, s, [ev]).

Definition get {S} : M S S := fun s => (Return s, s, []).

Definition modify {S} (f : S -> S) : M S unit := fun s => (Return tt, f s, []).

Declare Scope monad_scope.
Delimit Scope monad_scope with monad.
Notation "x <- m ;; k" := (bind m (fun x => k))
  (at level 61, m at next level, right associativity) : monad_scope.
Notation "m ;; k" := (bind m (fun _ => k))
  (at level 61, right associativity) : monad_scope.
Local Open Scope monad_scope.

(** [for (const x of xs) { body x }] *)
Fixpoint for_each {S A} (xs : list A) (body : A -> M S unit) : M S unit :=
  match xs with
  | [] => ret tt
  | x :: rest => body x ;; for_each rest body
  end.

(** Projections of an outcome. *)
Definition result_of {S A} (o : Result A * S * Trace) : Result A := fst (fst o).
Definition state_of {S A} (o : Result A * S * Trace) : S := snd (fst o).
Definition trace_of {S A} (o : Result A * S * Trace) : Trace := snd o.

(** Observations on traces. *)
Definition deliveries (t : Trace) : list Message :=
  flat_map (fun ev => match ev with EvMessage _ m => [m] | _ => [] end) t.

Definition requests (t : Trace) : list Request :=
  flat_map (fun ev => match ev with EvHttp r => [r] | _ => [] end) t.

Definition watermark_writes (t : Trace) : list Z :=
  flat_map (fun ev => match ev with EvWatermark v => [v] | _ => [] end) t.

(** The largest timestamp of a list of messages, [None] when it is empty. *)
Fixpoint max_timestamp (ms : list Message) : option Z :=
  match ms with
  | [] => None
  | m :: rest =>
      match max_timestamp rest with
      | Some v => Some (Z.max (timestamp m) v)
      | None => Some (timestamp m)
      end
  end.

(** The watermark after seeing [ms] from [w]: the running [Math.max]. *)
Definition advance (w : Z) (ms : list Message) : Z :=
  fold_left (fun acc m => Z.max acc (timestamp m)) ms w.

(** ** The polling client *)

Module Polling.

(** The private mutable fields of the object, and the part of the host
    runtime it acts on: the interval timers that are live, and the next
    fresh timer handle. *)
Record State := mkState {
  pollInterval : option nat;
  lastMessageTimestamp : Z;
  messageCallback : option CallbackId;
  errorCallback : option CallbackId;
  timers : list nat;
  nextTimer : nat
}.

(** A freshly constructed client. *)
Definition initial : State := mkState None 0 None None [] 0%nat.

Definition set_pollInterval (v : option nat) (st : State) : State :=
  mkState v (lastMessageTimestamp st) (messageCallback st) (errorCallback st)
          (timers st) (nextTimer st).

Definition set_lastMessageTimestamp (v : Z) (st : State) : State :=
  mkState (pollInterval st) v (messageCallback st) (errorCallback st)
          (timers st) (nextTimer st).

Definition set_messageCallback (v : option CallbackId) (st : State) : State :=
  mkState (pollInterval st) (lastMessageTimestamp st) v (errorCallback st)
          (timers st) (nextTimer st).

Definition set_errorCallback (v : option CallbackId) (st : State) : State :=
  mkState (pollInterval st) (lastMessageTimestamp st) (messageCallback st) v
          (timers st) (nextTimer st).

(** [setInterval(handler, ms)]: a fresh live timer. *)
Definition setInterval (ms : Z) : M State nat :=
  fun st =>
    (Return (nextTimer st),
     mkState (pollInterval st) (lastMessageTimestamp st) (messageCallback st)
             (errorCallback st) (nextTimer st :: timers st) (S (nextTimer st)),
     [EvSetInterval (nextTimer st) ms]).

(** [clearInterval(id)] *)
Definition clearInterval (id : nat) : M State unit :=
  fun st =>
    (Return tt,
     mkState (pollInterval st) (lastMessageTimestamp st) (messageCallback st)
             (errorCallback st)
             (filter (fun t => negb (Nat.eqb t id)) (timers st)) (nextTimer st),
     [EvClearInterval id]).

Section Client.

Variable config : OpenPondConfig.

(** [this.errorCallback?.(error)] *)
Definition reportError (error : Exn) : M State unit :=
  fun st =>
    match errorCallback st with
    | Some cb => (Return tt, st, [EvError cb error])
    | None => (Return tt, st, [])
    end.

(** [this.messageCallback?.(message)] *)
Definition deliver (message : Message) : M State unit :=
  fun st =>
    match messageCallback st with
    | Some cb => (Return tt, st, [EvMessage cb message])
    | None => (Return tt, st, [])
    end.

(** A request through [this.api]: the axios instance created in the
    constructor, with its response interceptor
    [(response) => response, (error) => { this.errorCallback?.(error); throw error; }]. *)
Definition api {A} (m : Method) (path : string) (p : Payload)
           (ans : ServerAnswer A) : M State A :=
  emit (EvHttp (mkRequest m path (defaultHeaders config) p)) ;;
  match settle ans with
  | Return response => ret response
  | Throw error => reportError error ;; throw error
  end.

Definition onMessage (callback : CallbackId) : M State unit :=
  modify (set_messageCallback (Some callback)).

Definition onError (callback : CallbackId) : M State unit :=
  modify (set_errorCallback (Some callback)).

Definition registerAgent (ans : ServerAnswer unit) : M State unit :=
  try_catch
    (api POST "/agents/register"
         (RegisterBody (privateKey config) (agentName config)) ans)
    (fun error =>
       if isAxiosError error && responseStatusIs 409 error
       then ret tt
       else throw error).

Definition sendMessage (toAgentId content : string)
           (options : option SendMessageOptions)
           (ans : ServerAnswer string) : M State string :=
  try_catch
    (api POST "/messages"
         (MessageBody toAgentId content (privateKey config) options) ans)
    (fun error => reportError error ;; throw error).

Definition getMessages (since : option Z)
           (ans : ServerAnswer (list Message)) : M State (list Message) :=
  try_catch
    (st <- get ;;
     api GET "/messages"
         (MessagesParams (privateKey config)
                         (num_or since (lastMessageTimestamp st))) ans)
    (fun error => reportError error ;; throw error).

Definition getAgent (agentId : string) (ans : ServerAnswer Agent)
  : M State Agent :=
  try_catch
    (api GET (String.append "/agents/" agentId) NoPayload ans)
    (fun error => reportError error ;; throw error).

Definition listAgents (ans : ServerAnswer (list Agent))
  : M State (list Agent) :=
  try_catch
    (api GET "/agents" NoPayload ans)
    (fun error => reportError error ;; throw error).

(** The body of the [for] loop of the interval handler. *)
Definition processMessage (message : Message) : M State unit :=
  st <- get ;;
  let v := Z.max (lastMessageTimestamp st) (timestamp message) in
  modify (set_lastMessageTimestamp v) ;;
  emit (EvWatermark v) ;;
  deliver message.

(** The handler given to [setInterval]: one poll cycle. *)
Definition pollCycle (ans : ServerAnswer (list Message)) : M State unit :=
  try_catch
    (messages <- getMessages None ans ;;
     for_each messages processMessage)
    (fun error => reportError error).

Definition startPolling : M State unit :=
  id <- setInterval 5000 ;;
  modify (set_pollInterval (Some id)).

Definition start (ans : ServerAnswer unit) : M State unit :=
  try_catch
    (registerAgent ans ;; startPolling)
    (fun error => reportError error ;; throw error).

Definition stop : M State unit :=
  st <- get ;;
  match pollInterval st with
  | Some id => clearInterval id ;; modify (set_pollInterval None)
  | None => ret tt
  end.

(** The host runtime fires timer [id]: its handler runs if the timer is
    still live. *)
Definition tick (id : nat) (ans : ServerAnswer (list Message))
  : M State unit :=
  fun st =>
    if existsb (Nat.eqb id) (timers st) then pollCycle ans st
    else (Return tt, st, []).

(** Everything that can happen to a client: a call of a public method by
    the application, or a timer tick by the runtime. *)
Inductive Op :=
| OpOnMessage (callback : CallbackId)
| OpOnError (callback : CallbackId)
| OpStart (ans : ServerAnswer unit)
| OpStop
| OpSendMessage (toAgentId content : string)
                (options : option SendMessageOptions)
                (ans : ServerAnswer string)
| OpGetMessages (since : option Z) (ans : ServerAnswer (list Message))
| OpGetAgent (agentId : string) (ans : ServerAnswer Agent)
| OpListAgents (ans : ServerAnswer (list Agent))
| OpTick (id : nat) (ans : ServerAnswer (list Message)).

(** Forget the value an operation settles with. *)
Definition void {A} (m : M State A) : State -> State * Trace :=
  fun st => (state_of (m st), trace_of (m st)).

Definition exec (op : Op) : State -> State * Trace :=
  match op with
  | OpOnMessage cb => void (onMessage cb)
  | OpOnError cb => void (onError cb)
  | OpStart ans => void (start ans)
  | OpStop => void stop
  | OpSendMessage to body options ans => void (sendMessage to body options ans)
  | OpGetMessages since ans => void (getMessages since ans)
  | OpGetAgent agentId ans => void (getAgent agentId ans)
  | OpListAgents ans => void (listAgents ans)
  | OpTick id ans => void (tick id ans)
  end.

Fixpoint run (ops : list Op) (st : State) : State * Trace :=
  match ops with
  | [] => (st, [])
  | op :: rest =>
      let (st1, t1) := exec op st in
      let (st2, t2) := run rest st1 in
      (st2, t1 ++ t2)
  end.

End Client.

End Polling.

(** ** The push (event-stream) client, [src/sdk.ts] *)

Module Push.

(** The private mutable fields of the object, and the part of the host
    runtime it acts on: the event streams that are open, and the next fresh
    stream handle. *)
Record State := mkState {
  eventSource : option nat;
  messageCallback : option CallbackId;
  errorCallback : option CallbackId;
  streams : list nat;
  nextStream : nat
}.

(** A freshly constructed client. *)
Definition initial : State := mkState None None None [] 0%nat.

Definition set_eventSource (v : option nat) (st : State) : State :=
  mkState v (messageCallback st) (errorCallback st) (streams st)
          (nextStream st).

Definition set_messageCallback (v : option CallbackId) (st : State) : State :=
  mkState (eventSource st) v (errorCallback st) (streams st) (nextStream st).

Definition set_errorCallback (v : option CallbackId) (st : State) : State :=
  mkState (eventSource st) (messageCallback st) v (streams st) (nextStream st).

(** [new EventSource(url, { headers })]: a fresh open stream. *)
Definition newEventSource (url : string) (hs : list (string * string))
  : M State nat :=
  fun st =>
    (Return (nextStream st),
     mkState (eventSource st) (messageCallback st) (errorCallback st)
             (nextStream st :: streams st) (S (nextStream st)),
     [EvOpenStream (nextStream st) url hs]).

(** [eventSource.close()] *)
Definition closeEventSource (id : nat) : M State unit :=
  fun st =>
    (Return tt,
     mkState (eventSource st) (messageCallback st) (errorCallback st)
             (filter (fun s => negb (Nat.eqb s id)) (streams st))
             (nextStream st),
     [EvCloseStream id]).

Section Client.

Variable config : OpenPondConfig.

(** [new URL(s).toString()]: the serialised URL, or [inr] the message of
    the [TypeError] the constructor throws on an invalid URL. *)
Variable parseURL : string -> string + string.

(** [JSON.parse(data)]: the value, or [inr] the message of the
    [SyntaxError] thrown on a malformed payload. *)
Variable JSON_parse : string -> Json + string.

(** [this.errorCallback?.(error)] *)
Definition reportError (error : Exn) : M State unit :=
  fun st =>
    match errorCallback st with
    | Some cb => (Return tt, st, [EvError cb error])
    | None => (Return tt, st, [])
    end.

(** [this.messageCallback?.(message)] *)
Definition deliver (message : Message) : M State unit :=
  fun st =>
    match messageCallback st with
    | Some cb => (Return tt, st, [EvMessage cb message])
    | None => (Return tt, st, [])
    end.

(** A request through [this.api], response interceptor included. *)
Definition api {A} (m : Method) (path : string) (p : Payload)
           (ans : ServerAnswer A) : M State A :=
  emit (EvHttp (mkRequest m path (defaultHeaders config) p)) ;;
  match settle ans with
  | Return response => ret response
  | Throw error => reportError error ;; throw error
  end.

Definition onMessage (callback : CallbackId) : M State unit :=
  modify (set_messageCallback (Some callback)).

Definition onError (callback : CallbackId) : M State unit :=
  modify (set_errorCallback (Some callback)).

Definition registerAgent (ans : ServerAnswer unit) : M State unit :=
  try_catch
    (api POST "/agents/register"
         (RegisterBody (privateKey config) (agentName config)) ans)
    (fun error =>
       if isAxiosError error && responseStatusIs 409 error
       then ret tt
       else throw error).

(** The listener for the ["message"] event of the stream. *)
Definition onStreamMessage (data : string) : M State unit :=
  try_catch
    (match JSON_parse data with
     | inl (JMessage message) =>
         if truthy (privateKey config)
            && String.eqb (toAgentId message) (privateKey config)
         then deliver message
         else ret tt
     | inl JNull =>
         if truthy (privateKey config)
         then throw (ErrorObj "Cannot read properties of null")
         else ret tt
     | inl JOther => ret tt
     | inr why => throw (ErrorObj why)
     end)
    (fun error =>
       if instanceofError error then reportError error
       else reportError (ErrorObj "Failed to parse message")).

(** The listener for the ["error"] event of the stream. *)
Definition onStreamError : M State unit :=
  reportError (ErrorObj "EventSource connection error").

(** The headers of the subscription; [now] is [Date.now().toString()]. *)
Definition streamHeaders (now : string) : list (string * string) :=
  [("Accept", "text/event-stream")]
    ++ match apiKey config with
       | Some k => if truthy k then [("X-API-Key", k)] else []
       | None => []
       end
    ++ (if truthy (privateKey config)
        then [("X-Agent-Id", privateKey config); ("X-Timestamp", now)]
        else []).

Definition start (now : string) (ans : ServerAnswer unit) : M State unit :=
  try_catch
    (registerAgent ans ;;
     url <- match parseURL (String.append (apiUrl config) "/messages/stream")
            with
            | inl u => ret u
            | inr why => throw (ErrorObj why)
            end ;;
     id <- newEventSource url (streamHeaders now) ;;
     modify (set_eventSource (Some id)))
    (fun error =>
       (if instanceofError error then reportError error else ret tt) ;;
       throw error).

Definition stop : M State unit :=
  st <- get ;;
  match eventSource st with
  | Some id => closeEventSource id ;; modify (set_eventSource None)
  | None => ret tt
  end.

Definition sendMessage (toAgentId content : string)
           (options : option SendMessageOptions)
           (ans : ServerAnswer string) : M State string :=
  try_catch
    (api POST "/messages"
         (MessageBody toAgentId content (privateKey config) options) ans)
    (fun error => reportError error ;; throw error).

Definition getMessages (since : option Z)
           (ans : ServerAnswer (list Message)) : M State (list Message) :=
  try_catch
    (api GET "/messages"
         (MessagesParams (privateKey config) (num_or since 0)) ans)
    (fun error => reportError error ;; throw error).

Definition getAgent (agentId : string) (ans : ServerAnswer Agent)
  : M State Agent :=
  try_catch
    (api GET (String.append "/agents/" agentId) NoPayload ans)
    (fun error => reportError error ;; throw error).

Definition listAgents (ans : ServerAnswer (list Agent))
  : M State (list Agent) :=
  try_catch
    (api GET "/agents" NoPayload ans)
    (fun error => reportError error ;; throw error).

(** The runtime dispatches a ["message"] event of stream [id]: the listener
    runs if the stream is still open. *)
Definition streamMessage (id : nat) (data : string) : M State unit :=
  fun st =>
    if existsb (Nat.eqb id) (streams st) then onStreamMessage data st
    else (Return tt, st, []).

(** The runtime dispatches an ["error"] event of stream [id]. *)
Definition streamError (id : nat) : M State unit :=
  fun st =>
    if existsb (Nat.eqb id) (streams st) then onStreamError st
    else (Return tt, st, []).

End Client.

End Push.

(** ** Observations used by the statements *)

(** Who was handed which message, in order. *)
Definition handoffs (t : Trace) : list (CallbackId * Message) :=
  flat_map (fun ev => match ev with EvMessage cb m => [(cb, m)] | _ => [] end) t.

Definition intervals_started (t : Trace) : list nat :=
  flat_map (fun ev => match ev with EvSetInterval id _ => [id] | _ => [] end) t.

Definition intervals_cleared (t : Trace) : list nat :=
  flat_map (fun ev => match ev with EvClearInterval id => [id] | _ => [] end) t.

Definition streams_opened (t : Trace) : list nat :=
  flat_map (fun ev => match ev with EvOpenStream id _ _ => [id] | _ => [] end) t.

(** The ordering the specification words for the cursor: a write of the
    watermark happens only after a message was handed to the callback.
    [handed] counts the hand-offs not yet followed by their write. *)
Fixpoint mutations_follow_handoffs (handed : nat) (t : Trace) : bool :=
  match t with
  | [] => true
  | EvMessage _ _ :: rest => mutations_follow_handoffs (S handed) rest
  | EvWatermark _ :: rest =>
      match handed with
      | O => false
      | S n => mutations_follow_handoffs n rest
      end
  | _ :: rest => mutations_follow_handoffs handed rest
  end.

(** The opposite ordering: a message is handed to the callback only after
    the write made for it.  [written] counts the writes not yet followed by
    their hand-off. *)
Fixpoint handoffs_follow_mutations (written : nat) (t : Trace) : bool :=
  match t with
  | [] => true
  | EvWatermark _ :: rest => handoffs_follow_mutations (S written) rest
  | EvMessage _ _ :: rest =>
      match written with
      | O => false
      | S n => handoffs_follow_mutations n rest
      end
  | _ :: rest => handoffs_follow_mutations written rest
  end.

(** The events of the [for] loop of a poll cycle over [ms], entered with
    the watermark at [w] and the message callback slot holding [cb]. *)
Fixpoint cycle_events (cb : option CallbackId) (w : Z) (ms : list Message)
  : Trace :=
  match ms with
  | [] => []
  | m :: rest =>
      let v := Z.max w (timestamp m) in
      EvWatermark v
        :: match cb with
           | Some c => [EvMessage c m]
           | None => []
           end
        ++ cycle_events cb v rest
  end.

(** The events of one [this.errorCallback?.(error)]. *)
Definition error_events (cb : option CallbackId) (e : Exn) : Trace :=
  match cb with
  | Some c => [EvError c e]
  | None => []
  end.

(** The request [GET /messages] with the given [since] parameter. *)
Definition messagesRequest (config : OpenPondConfig) (since : Z) : Request :=
  mkRequest GET "/messages" (defaultHeaders config)
            (MessagesParams (privateKey config) since).

(** The request [POST /agents/register]. *)
Definition registerRequest (config : OpenPondConfig) : Request :=
  mkRequest POST "/agents/register" (defaultHeaders config)
            (RegisterBody (privateKey config) (agentName config)).

Definition is_tick (op : Polling.Op) : bool :=
  match op with
  | Polling.OpTick _ _ => true
  | _ => false
  end.

(** Dual notification: the call rejects with [e] and the callback [cb] was
    invoked with [e]. *)
Definition DualNotification {S A} (cb : CallbackId) (e : Exn)
           (o : Result A * S * Trace) : Prop :=
  result_of o = Throw e /\ In (EvError cb e) (trace_of o).

(** The call issued the single request [r], the callback [cb] was then
    invoked twice with [e], and the call rejected with [e]. *)
Definition ReportedTwice {S A} (cb : CallbackId) (r : Request) (e : Exn)
           (o : Result A * S * Trace) : Prop :=
  result_of o = Throw e
  /\ trace_of o = [EvHttp r; EvError cb e; EvError cb e].

(** ** Sample data *)

Definition sampleConfig : OpenPondConfig :=
  mkConfig "https://api.example" "0xA11CE" (Some "alice") None.

(** A message for the agent of [sampleConfig]. *)
Definition sampleMessage (id : string) (ts : Z) : Message :=
  mkMessage id "0xB0B" "0xA11CE" "hello" ts None None.

(** A configuration whose identity is the empty string. *)
Definition blankConfig : OpenPondConfig :=
  mkConfig "https://api.example" "" None None.

(** A message whose recipient is the empty string. *)
Definition blankMessage : Message :=
  mkMessage "m0" "0xB0B" "" "hello" 100 None None.

(** A polling client of [sampleConfig] with message callback [7] and error
    callback [8], started: timer [0] is live. *)
Definition startedPolling : Polling.State :=
  fst (Polling.run sampleConfig
         [Polling.OpOnMessage 7%nat; Polling.OpOnError 8%nat;
          Polling.OpStart (Answer 200 tt)]
         Polling.initial).

(** ** Further observations on requests and headers *)

(** The value of header [name] in [hs] (the first entry of that name). *)
Fixpoint lookup_header (name : string) (hs : list (string * string))
  : option string :=
  match hs with
  | [] => None
  | (k, v) :: rest => if String.eqb k name then Some v else lookup_header name rest
  end.

(** What [getMessages] of the push client sends for [since || 0]. *)
Definition since_or_zero (since : option Z) : Z :=
  match since with
  | Some s => s
  | None => 0
  end.

(** The request [POST /messages]. *)
Definition sendRequest (config : OpenPondConfig) (toAgentId content : string)
           (options : option SendMessageOptions) : Request :=
  mkRequest POST "/messages" (defaultHeaders config)
            (MessageBody toAgentId content (privateKey config) options).

(** The request [GET /agents/:id]. *)
Definition agentRequest (config : OpenPondConfig) (agentId : string)
  : Request :=
  mkRequest GET (String.append "/agents/" agentId) (defaultHeaders config)
            NoPayload.

(** The request [GET /agents]. *)
Definition agentsRequest (config : OpenPondConfig) : Request :=
  mkRequest GET "/agents" (defaultHeaders config) NoPayload.

(** A push client of [sampleConfig] with message callback [7] and error
    callback [8], started at a URL parser that accepts everything: stream
    [0] is open. *)
Definition startedPush : Push.State :=
  state_of
    (Push.start sampleConfig (fun u => inl u) "1700000000000" (Answer 200 tt)
       (state_of (Push.onError 8%nat
                    (state_of (Push.onMessage 7%nat Push.initial))))).

(** ** The streaming client ([P2PClient]) and its supervised node process

    The class keeps its session in private fields; the node process, the
    gRPC client and the event stream are handles of the host.  What the
    class does to the host is appended to a log of [Effect]s kept with the
    state.  Everything the host decides is an argument: which files are
    executable, what the environment holds, what the spawned process does
    during the settle delay, whether loading the protocol descriptor and
    constructing the client succeed, what an RPC answers.  Every value
    thrown here is an [Error]; it is represented by its message.  Calls of
    the logger are left out: they return nothing and change nothing. *)

From Stdlib Require Import Ascii DecimalString.

Module P2P.

Record P2PClientOptions := mkOptions {
  address : string;
  timeout : option Z;
  binaryPath : option string;
  protoPath : option string
}.

Record P2PNodeOptions := mkNodeOptions {
  port : option Z;
  agentId : option string
}.

Record Message := mkMessage {
  messageId : string;
  fromAgentId : string;
  content : string;
  timestamp : Z
}.

Record Agent := mkAgent {
  agent_id : string;
  agent_name : string;
  peer_id : string;
  connected_since : Z
}.

(** What the host answers to the probes of the class. *)
Record Host := mkHost {
  nodeOnPath : bool;
  envNODE : option string;
  execPath : string;
  access : string -> option string;
  envPRIVATE_KEY : option string;
  envNODE_PATH : option string
}.

(** An event of the spawned process. *)
Inductive ProcessEvent :=
| ProcError (message : string)
| ProcExit (code : option Z).

(** How one construction of the gRPC client and its connect call end. *)
Inductive Attempt :=
| Established
| ClientThrows (message : string)
| ConnectThrows (message : string).

(** An event of the connect stream, by the field that is present. *)
Inductive StreamEvent :=
| Ready
| PeerConnected
| StreamFailure
| Incoming (messageId from content : string) (timestamp : Z)
| Unknown.

Inductive Effect :=
| FxSpawn (pid : nat) (executable : string) (argv : list string)
          (cwd nodePath : string)
| FxKill (pid : nat)
| FxSleep (ms : Z)
| FxLoadProto (path : string)
| FxNewClient (id : nat) (address : string)
| FxConnect (client stream : nat) (port : option Z) (name key : string)
| FxCancel (stream : nat)
| FxSendMessage (client : nat) (to content : string)
| FxListAgents (client : nat)
| FxHandler (handler : CallbackId) (message : Message).

Record State := mkState {
  client : option nat;
  stream : option nat;
  messageHandler : option CallbackId;
  connected : bool;
  nodeProcess : option nat;
  nextHandle : nat;
  log : list Effect
}.

(** A freshly constructed client. *)
Definition initial : State := mkState None None None false None 0%nat [].

Definition set_client (v : option nat) (st : State) : State :=
  mkState v (stream st) (messageHandler st) (connected st) (nodeProcess st)
          (nextHandle st) (log st).

Definition set_stream (v : option nat) (st : State) : State :=
  mkState (client st) v (messageHandler st) (connected st) (nodeProcess st)
          (nextHandle st) (log st).

Definition set_messageHandler (v : option CallbackId) (st : State) : State :=
  mkState (client st) (stream st) v (connected st) (nodeProcess st)
          (nextHandle st) (log st).

Definition set_connected (v : bool) (st : State) : State :=
  mkState (client st) (stream st) (messageHandler st) v (nodeProcess st)
          (nextHandle st) (log st).

Definition set_nodeProcess (v : option nat) (st : State) : State :=
  mkState (client st) (stream st) (messageHandler st) (connected st) v
          (nextHandle st) (log st).

(** State and exception monad; a thrown [Error] is its message. *)
Definition P (A : Type) : Type := State -> (A + string) * State.

Definition ret {A} (a : A) : P A := fun st => (inl a, st).

Definition throw {A} (message : string) : P A := fun st => (inr message, st).

Definition bind {A B} (m : P A) (k : A -> P B) : P B :=
  fun st =>
    match m st with
    | (inl a, st1) => k a st1
    | (inr e, st1) => (inr e, st1)
    end.

Definition try_catch {A} (m : P A) (handler : string -> P A) : P A :=
  fun st =>
    match m st with
    | (inl a, st1) => (inl a, st1)
    | (inr e, st1) => handler e st1
    end.

Definition get : P State := fun st => (inl st, st).

Definition modify (f : State -> State) : P unit := fun st => (inl tt, f st).

Definition effect (fx : Effect) : P unit :=
  fun st =>
    (inl tt,
     mkState (client st) (stream st) (messageHandler st) (connected st)
             (nodeProcess st) (nextHandle st) (log st ++ [fx])).

(** A fresh handle of the host (a process, a client, a stream). *)
Definition fresh : P nat :=
  fun st =>
    (inl (nextHandle st),
     mkState (client st) (stream st) (messageHandler st) (connected st)
             (nodeProcess st) (S (nextHandle st)) (log st)).

Declare Scope p2p_scope.
Delimit Scope p2p_scope with p2p.
Notation "x <- m ;; k" := (bind m (fun x => k))
  (at level 61, m at next level, right associativity) : p2p_scope.
Notation "m ;; k" := (bind m (fun _ => k))
  (at level 61, right associativity) : p2p_scope.
Local Open Scope p2p_scope.

(** [a || b] on an optional string: [undefined] and [""] are falsy. *)
Definition str_or (a : option string) (b : string) : string :=
  match a with
  | Some v => if truthy v then v else b
  | None => b
  end.

(** [s.split(sep)] for a one-character separator. *)
Fixpoint split (sep : Ascii.ascii) (s : string) : list string :=
  match s with
  | EmptyString => [EmptyString]
  | String c rest =>
      if Ascii.eqb c sep then EmptyString :: split sep rest
      else match split sep rest with
           | hd :: tl => String c hd :: tl
           | [] => [String c EmptyString]
           end
  end.

(** [address.split(":")[1]] *)
Definition portText (address : string) : option string :=
  nth_error (split ":"%char address) 1.

(** [String(n)] of an integer, ["NaN"] for [NaN]. *)
Definition showNumber (n : option Z) : string :=
  match n with
  | Some z => NilZero.string_of_int (Z.to_int z)
  | None => "NaN"
  end.

(** [`${code}`] of an exit code, ["null"] for [null]. *)
Definition showCode (code : option Z) : string :=
  match code with
  | Some z => NilZero.string_of_int (Z.to_int z)
  | None => "null"
  end.

(** The candidates of [findNodeExecutable], after [.filter(Boolean)]. *)
Definition possiblePaths (host : Host) : list string :=
  flat_map (fun candidate =>
              match candidate with
              | Some p => if truthy p then [p] else []
              | None => []
              end)
           [envNODE host; Some (execPath host); Some "/usr/bin/node";
            Some "/usr/local/bin/node"].

(** The first candidate on which [accessSync(p, X_OK)] does not throw. *)
Fixpoint firstExecutable (host : Host) (candidates : list string)
  : option string :=
  match candidates with
  | [] => None
  | p :: rest =>
      match access host p with
      | None => Some p
      | Some _ => firstExecutable host rest
      end
  end.

Definition findNodeExecutable (host : Host) : string :=
  if nodeOnPath host then "node"
  else match firstExecutable host (possiblePaths host) with
       | Some p => p
       | None => "node"
       end.

(** The first event of the spawned process that rejects the pending start:
    an error, or an exit with a code other than 0. *)
Fixpoint firstRejection (events : list ProcessEvent) : option string :=
  match events with
  | [] => None
  | ProcError message :: _ => Some message
  | ProcExit code :: rest =>
      match code with
      | Some 0 => firstRejection rest
      | _ => Some (String.append "P2P node exited with code " (showCode code))
      end
  end.

Section Client.

Variable options : P2PClientOptions.

(** The package-relative path search of the constructor, a walk over the
    file system. *)
Variable resolvePackagePath : string -> string.

(** [parseInt(text, 10)]; [None] is [NaN]. *)
Variable parseInt : option string -> option Z.

(** [path.dirname] *)
Variable dirname : string -> string.

(** The message of the [TypeError] thrown by a call on [null]. *)
Variable nullCallMessage : string.

Variable host : Host.

(** The fields the constructor computes. *)
Definition this_timeout : Z :=
  match timeout options with
  | Some t => if t =? 0 then 5000 else t
  | None => 5000
  end.

Definition this_protoPath : string :=
  str_or (protoPath options) (resolvePackagePath "dist/proto/p2p.proto").

Definition this_binaryPath : string :=
  str_or (binaryPath options) (resolvePackagePath "dist/node/p2p-node.js").

(** [nodeOptions?.agentId || "default-agent"] *)
Definition agentName (nodeOptions : option P2PNodeOptions) : string :=
  match nodeOptions with
  | Some o => str_or (agentId o) "default-agent"
  | None => "default-agent"
  end.

(** [process.env.PRIVATE_KEY || ""] *)
Definition privateKeyEnv : string := str_or (envPRIVATE_KEY host) "".

Definition grpcPort : option Z := parseInt (portText (address options)).

Definition cleanup : P unit :=
  modify (set_connected false) ;;
  modify (set_stream None) ;;
  modify (set_client None) ;;
  modify (set_messageHandler None) ;;
  st <- get ;;
  match nodeProcess st with
  | Some pid => effect (FxKill pid) ;; modify (set_nodeProcess None)
  | None => ret tt
  end.

Definition startNode (nodeOptions : option P2PNodeOptions)
           (early : list ProcessEvent) : P unit :=
  if negb (truthy this_binaryPath) then throw "Binary path not found"
  else
    let nodeExecutable := findNodeExecutable host in
    let args := ["-p"; showNumber grpcPort; "-n"; agentName nodeOptions;
                 "-k"; privateKeyEnv] in
    match access host nodeExecutable with
    | Some why => throw why
    | None =>
        pid <- fresh ;;
        effect (FxSpawn pid nodeExecutable (this_binaryPath :: args)
                        (dirname this_binaryPath)
                        (str_or (envNODE_PATH host) (dirname this_binaryPath))) ;;
        modify (set_nodeProcess (Some pid)) ;;
        match firstRejection early with
        | Some why => throw why
        | None => effect (FxSleep 1000)
        end
    end.

(** The body of the [try] inside the retry loop. *)
Definition attemptOnce (nodeOptions : option P2PNodeOptions) (a : Attempt)
  : P unit :=
  match a with
  | ClientThrows why => throw why
  | _ =>
      c <- fresh ;;
      effect (FxNewClient c (address options)) ;;
      modify (set_client (Some c)) ;;
      match a with
      | ConnectThrows why => throw why
      | _ =>
          s <- fresh ;;
          effect (FxConnect c s grpcPort (agentName nodeOptions)
                            privateKeyEnv) ;;
          modify (set_stream (Some s)) ;;
          modify (set_connected true)
      end
  end.

(** [while (retries > 0) { try { ...; break } catch (error) { retries--;
    if (retries === 0) throw error; await sleep(1000) } }]; [k] counts the
    attempts made so far. *)
Fixpoint retryLoop (nodeOptions : option P2PNodeOptions)
         (attempt : nat -> Attempt) (retries k : nat) : P unit :=
  match retries with
  | O => ret tt
  | S remaining =>
      try_catch
        (attemptOnce nodeOptions (attempt k))
        (fun error =>
           if Nat.eqb remaining 0 then throw error
           else effect (FxSleep 1000) ;;
                retryLoop nodeOptions attempt remaining (S k))
  end.

Definition connect (nodeOptions : option P2PNodeOptions)
           (early : list ProcessEvent) (loadError : option string)
           (attempt : nat -> Attempt) : P unit :=
  try_catch
    (startNode nodeOptions early ;;
     effect (FxSleep 2000) ;;
     effect (FxLoadProto this_protoPath) ;;
     match loadError with
     | Some why => throw why
     | None => ret tt
     end ;;
     retryLoop nodeOptions attempt 3 0)
    (fun error =>
       cleanup ;;
       throw (String.append "Failed to connect: " error)).

(** The listener for the ["data"] event of the stream. *)
Definition onData (event : StreamEvent) : P unit :=
  st <- get ;;
  match event, messageHandler st with
  | Incoming id from body ts, Some handler =>
      effect (FxHandler handler (mkMessage id from body ts))
  | _, _ => ret tt
  end.

(** The listener for the ["error"] event of the stream. *)
Definition onStreamError : P unit := modify (set_connected false).

Definition sendMessage (to body : string) (rpcError : option string)
  : P unit :=
  st <- get ;;
  if negb (connected st) then throw "Not connected to P2P network"
  else
    try_catch
      (match client st with
       | Some c =>
           effect (FxSendMessage c to body) ;;
           match rpcError with
           | Some why => throw why
           | None => ret tt
           end
       | None => throw nullCallMessage
       end)
      (fun error => throw (String.append "Failed to send message: " error)).

Definition onMessage (handler : CallbackId) : P unit :=
  modify (set_messageHandler (Some handler)).

Definition disconnect : P unit :=
  st <- get ;;
  match stream st with
  | Some s => effect (FxCancel s)
  | None => ret tt
  end ;;
  match nodeProcess st with
  | Some pid => effect (FxKill pid)
  | None => ret tt
  end ;;
  cleanup.

Definition listAgents (answer : list Agent + string) : P (list Agent) :=
  st <- get ;;
  match connected st, client st with
  | true, Some c =>
      effect (FxListAgents c) ;;
      match answer with
      | inl response => ret response
      | inr why => throw why
      end
  | _, _ => throw "Not connected to P2P network"
  end.

(** Everything that can happen to a client: a call of a public method, or
    an event of the connect stream. *)
Inductive Op :=
| OpConnect (nodeOptions : option P2PNodeOptions) (early : list ProcessEvent)
            (loadError : option string) (attempt : nat -> Attempt)
| OpSendMessage (to body : string) (rpcError : option string)
| OpListAgents (answer : list Agent + string)
| OpOnMessage (handler : CallbackId)
| OpDisconnect
| OpData (event : StreamEvent)
| OpStreamError.

Definition exec (op : Op) (st : State) : State :=
  match op with
  | OpConnect nodeOptions early loadError attempt =>
      snd (connect nodeOptions early loadError attempt st)
  | OpSendMessage to body rpcError => snd (sendMessage to body rpcError st)
  | OpListAgents answer => snd (listAgents answer st)
  | OpOnMessage handler => snd (onMessage handler st)
  | OpDisconnect => snd (disconnect st)
  | OpData event => snd (onData event st)
  | OpStreamError => snd (onStreamError st)
  end.

Definition run (ops : list Op) (st : State) : State :=
  fold_left (fun s op => exec op s) ops st.

End Client.

End P2P.

(** The session invariant of the streaming client: while [connected] holds,
    the gRPC client and the stream are present. *)
Definition p2p_session_ok (st : P2P.State) : Prop :=
  P2P.connected st = true ->
  P2P.client st <> None /\ P2P.stream st <> None.

(** The calls made on the gRPC side, in order. *)
Definition rpc_calls (l : list P2P.Effect) : list P2P.Effect :=
  filter (fun fx => match fx with
                    | P2P.FxSendMessage _ _ _ | P2P.FxListAgents _ => true
                    | _ => false
                    end) l.

(** The handles of the clients constructed, in order. *)
Definition clients_built (l : list P2P.Effect) : list nat :=
  flat_map (fun fx => match fx with P2P.FxNewClient c _ => [c] | _ => [] end) l.

(** The delays awaited, in order. *)
Definition sleeps (l : list P2P.Effect) : list Z :=
  flat_map (fun fx => match fx with P2P.FxSleep ms => [ms] | _ => [] end) l.

(** The processes killed, in order. *)
Definition kills (l : list P2P.Effect) : list nat :=
  flat_map (fun fx => match fx with P2P.FxKill p => [p] | _ => [] end) l.

(** The messages handed to a handler, in order. *)
Definition handled (l : list P2P.Effect) : list (CallbackId * P2P.Message) :=
  flat_map (fun fx => match fx with P2P.FxHandler h m => [(h, m)] | _ => [] end) l.

(** A host on which [node] is found on the path and is executable. *)
Definition sampleHost : P2P.Host :=
  P2P.mkHost true None "/opt/bun/bin/bun" (fun _ => None) (Some "0xKEY") None.

Definition sampleOptions : P2P.P2PClientOptions :=
  P2P.mkOptions "localhost:50051" None (Some "/srv/p2p-node.js")
                (Some "/srv/p2p.proto").

(** The session fields after a reset. *)
Definition p2p_reset (st : P2P.State) : Prop :=
  P2P.client st = None /\ P2P.stream st = None
  /\ P2P.messageHandler st = None /\ P2P.connected st = false
  /\ P2P.nodeProcess st = None.

(** The message an attempt fails with, if it fails. *)
Definition failure_of (a : P2P.Attempt) : option string :=
  match a with
  | P2P.Established => None
  | P2P.ClientThrows message => Some message
  | P2P.ConnectThrows message => Some message
  end.

(** A streaming client of [sampleOptions] on [sampleHost], connected at the
    first attempt: process [0], client [1], stream [2]. *)
Definition connectedP2P : P2P.State :=
  snd (P2P.connect sampleOptions (fun p => p) (fun _ => Some 50051)
         (fun _ => "/srv") sampleHost None [] None
         (fun _ => P2P.Established) P2P.initial).

(** A host without [node] on the path, with [NODE] set. *)
Definition customHost : P2P.Host :=
  P2P.mkHost false (Some "/custom/node") "/opt/bun/bin/bun"
             (fun p => if String.eqb p "/custom/node" then None
                       else Some "EACCES")
             None None.

(** ** Basic facts *)

Lemma settle_failure {A} (ans : ServerAnswer A) :
  is_failure ans = true -> settle ans = Throw (rejection ans).
Proof.
  destruct ans as [status data|]; simpl; [|reflexivity].
  destruct (validateStatus status); simpl; [discriminate | reflexivity].
Qed.

Lemma settle_success {A} (ans : ServerAnswer A) :
  is_failure ans = false ->
  exists status data,
    ans = Answer status data /\ validateStatus status = true
    /\ settle ans = Return data.
Proof.
  destruct ans as [status data|]; simpl; [|discriminate].
  destruct (validateStatus status) eqn:E; simpl; [|discriminate].
  intros _. exists status, data. rewrite E. auto.
Qed.

Lemma failure_iff {A} (ans : ServerAnswer A) :
  is_failure ans = true <->
  ans = NoResponse
  \/ exists status data, ans = Answer status data
                         /\ (status < 200 \/ 300 <= status).
Proof.
  destruct ans as [status data|]; simpl; unfold validateStatus.
  - split.
    + intros H. right. exists status, data. split; [reflexivity|].
      destruct (200 <=? status) eqn:E1; destruct (status <? 300) eqn:E2;
        simpl in H; try discriminate; lia.
    + intros [H | (s & d & H & Hs)]; [discriminate|].
      injection H as -> _.
      destruct (200 <=? s) eqn:E1; destruct (s <? 300) eqn:E2;
        simpl; try reflexivity; lia.
  - split; auto.
Qed.

Lemma advance_ge (ms : list Message) (w : Z) : w <= advance w ms.
Proof.
  revert w. induction ms as [|m ms IH]; intros w; unfold advance; simpl.
  - lia.
  - fold (advance (Z.max w (timestamp m)) ms).
    specialize (IH (Z.max w (timestamp m))). lia.
Qed.

Lemma advance_max (ms : list Message) (w : Z) :
  advance w ms = match max_timestamp ms with
                 | Some v => Z.max w v
                 | None => w
                 end.
Proof.
  revert w. induction ms as [|m ms IH]; intros w; unfold advance; simpl.
  - reflexivity.
  - fold (advance (Z.max w (timestamp m)) ms). rewrite IH.
    destruct (max_timestamp ms); lia.
Qed.

Lemma handoffs_cycle_events (cb : CallbackId) (ms : list Message) (w : Z) :
  handoffs (cycle_events (Some cb) w ms) = map (pair cb) ms.
Proof.
  revert w. induction ms as [|m ms IH]; intros w; simpl.
  - reflexivity.
  - rewrite IH. reflexivity.
Qed.

Lemma handoffs_follow_cycle_events (cb : option CallbackId)
      (ms : list Message) (w : Z) (n : nat) :
  handoffs_follow_mutations n (cycle_events cb w ms) = true.
Proof.
  revert w n. induction ms as [|m ms IH]; intros w n; simpl.
  - reflexivity.
  - destruct cb; simpl; apply IH.
Qed.

(** Case analysis on the answer to a request: it fails ([E]), or it is some
    [Answer status data] with a 2xx [status] ([Hs]). *)
Ltac answer_cases ans E Hs :=
  destruct (is_failure ans) eqn:E;
  [ | let status := fresh "status" in
      let data := fresh "data" in
      destruct (settle_success _ E) as (status & data & -> & Hs & _) ].

(** ** The polling client: what each operation does *)

Section PollingFacts.

Import Polling.

Variable config : OpenPondConfig.

Lemma poll_reportError (e : Exn) (st : State) :
  reportError e st = (Return tt, st, error_events (errorCallback st) e).
Proof. unfold reportError, error_events. destruct (errorCallback st); reflexivity. Qed.

Lemma poll_api_failure {A} m path p (ans : ServerAnswer A) (st : State) :
  is_failure ans = true ->
  api config m path p ans st
  = (Throw (rejection ans), st,
     EvHttp (mkRequest m path (defaultHeaders config) p)
       :: error_events (errorCallback st) (rejection ans)).
Proof.
  intros H. unfold api, bind, emit. rewrite (settle_failure ans H).
  unfold bind, throw. rewrite poll_reportError. simpl.
  rewrite app_nil_r. reflexivity.
Qed.

Lemma poll_api_success {A} m path p status (data : A) (st : State) :
  validateStatus status = true ->
  api config m path p (Answer status data) st
  = (Return data, st, [EvHttp (mkRequest m path (defaultHeaders config) p)]).
Proof.
  intros H. unfold api, bind, emit, settle. rewrite H. reflexivity.
Qed.

(** A public unary call whose request fails: the interceptor reports,
    the [catch] block reports again, and the error is rethrown. *)
Lemma poll_unary_failure {A} m path p (ans : ServerAnswer A) (st : State) :
  is_failure ans = true ->
  try_catch (api config m path p ans)
            (fun error => reportError error ;; throw error) st
  = (Throw (rejection ans), st,
     EvHttp (mkRequest m path (defaultHeaders config) p)
       :: error_events (errorCallback st) (rejection ans)
       ++ error_events (errorCallback st) (rejection ans)).
Proof.
  intros H. unfold try_catch. rewrite (poll_api_failure _ _ _ _ _ H).
  unfold bind, throw. rewrite poll_reportError. simpl.
  rewrite app_nil_r. reflexivity.
Qed.

Lemma poll_unary_success {A} m path p status (data : A) (st : State) :
  validateStatus status = true ->
  try_catch (api config m path p (Answer status data))
            (fun error => reportError error ;; throw error) st
  = (Return data, st, [EvHttp (mkRequest m path (defaultHeaders config) p)]).
Proof.
  intros H. unfold try_catch. rewrite (poll_api_success _ _ _ _ _ _ H).
  reflexivity.
Qed.

Lemma poll_getMessages_failure since ans st :
  is_failure ans = true ->
  getMessages config since ans st
  = (Throw (rejection ans), st,
     EvHttp (messagesRequest config (num_or since (lastMessageTimestamp st)))
       :: error_events (errorCallback st) (rejection ans)
       ++ error_events (errorCallback st) (rejection ans)).
Proof.
  intros H. unfold getMessages, try_catch, bind at 1, get.
  rewrite (poll_api_failure _ _ _ _ _ H).
  unfold bind, throw. rewrite poll_reportError. simpl.
  rewrite app_nil_r. reflexivity.
Qed.

Lemma poll_getMessages_success since status msgs st :
  validateStatus status = true ->
  getMessages config since (Answer status msgs) st
  = (Return msgs, st,
     [EvHttp (messagesRequest config (num_or since (lastMessageTimestamp st)))]).
Proof.
  intros H. unfold getMessages, try_catch, bind, get.
  rewrite (poll_api_success _ _ _ _ _ _ H). reflexivity.
Qed.

Lemma poll_processMessage (m : Message) (st : State) :
  processMessage m st
  = (Return tt,
     set_lastMessageTimestamp
       (Z.max (lastMessageTimestamp st) (timestamp m)) st,
     EvWatermark (Z.max (lastMessageTimestamp st) (timestamp m))
       :: match messageCallback st with
          | Some c => [EvMessage c m]
          | None => []
          end).
Proof.
  unfold processMessage, bind, get, modify, emit, deliver.
  destruct st as [pi w mc ec ts nt]; cbn.
  destruct mc; reflexivity.
Qed.

Lemma poll_loop (ms : list Message) (st : State) :
  for_each ms processMessage st
  = (Return tt,
     set_lastMessageTimestamp (advance (lastMessageTimestamp st) ms) st,
     cycle_events (messageCallback st) (lastMessageTimestamp st) ms).
Proof.
  revert st. induction ms as [|m ms IH]; intros st.
  - destruct st; reflexivity.
  - cbn [for_each]. unfold bind. rewrite poll_processMessage, IH.
    destruct st as [pi w mc ec ts nt]; cbn.
    destruct mc; reflexivity.
Qed.

Lemma poll_cycle_success status msgs st :
  validateStatus status = true ->
  pollCycle config (Answer status msgs) st
  = (Return tt,
     set_lastMessageTimestamp (advance (lastMessageTimestamp st) msgs) st,
     EvHttp (messagesRequest config (lastMessageTimestamp st))
       :: cycle_events (messageCallback st) (lastMessageTimestamp st) msgs).
Proof.
  intros H. unfold pollCycle, try_catch, bind.
  rewrite (poll_getMessages_success _ _ _ _ H), poll_loop. reflexivity.
Qed.

Lemma poll_cycle_failure ans st :
  is_failure ans = true ->
  pollCycle config ans st
  = (Return tt, st,
     EvHttp (messagesRequest config (lastMessageTimestamp st))
       :: error_events (errorCallback st) (rejection ans)
       ++ error_events (errorCallback st) (rejection ans)
       ++ error_events (errorCallback st) (rejection ans)).
Proof.
  intros H. unfold pollCycle, try_catch, bind.
  rewrite (poll_getMessages_failure _ _ _ H), poll_reportError.
  cbn [num_or]. simpl. rewrite <- app_assoc. reflexivity.
Qed.

Lemma poll_registerAgent_success status data st :
  validateStatus status = true ->
  registerAgent config (Answer status data) st
  = (Return tt, st, [EvHttp (registerRequest config)]).
Proof.
  intros H. unfold registerAgent, try_catch.
  rewrite (poll_api_success _ _ _ _ _ _ H). destruct data. reflexivity.
Qed.

Lemma poll_registerAgent_conflict data st :
  registerAgent config (Answer 409 data) st
  = (Return tt, st,
     EvHttp (registerRequest config)
       :: error_events (errorCallback st) (AxiosError (Some 409))).
Proof.
  unfold registerAgent, try_catch.
  rewrite poll_api_failure by reflexivity. simpl.
  rewrite app_nil_r. reflexivity.
Qed.

Lemma poll_registerAgent_failure ans st :
  is_failure ans = true ->
  responseStatusIs 409 (rejection ans) = false ->
  registerAgent config ans st
  = (Throw (rejection ans), st,
     EvHttp (registerRequest config)
       :: error_events (errorCallback st) (rejection ans)).
Proof.
  intros H H409. unfold registerAgent, try_catch.
  rewrite (poll_api_failure _ _ _ _ _ H). rewrite H409, andb_false_r.
  unfold throw. rewrite app_nil_r. reflexivity.
Qed.

Lemma poll_start_failure ans st :
  is_failure ans = true ->
  responseStatusIs 409 (rejection ans) = false ->
  start config ans st
  = (Throw (rejection ans), st,
     EvHttp (registerRequest config)
       :: error_events (errorCallback st) (rejection ans)
       ++ error_events (errorCallback st) (rejection ans)).
Proof.
  intros H H409. unfold start, try_catch, bind at 1.
  rewrite (poll_registerAgent_failure _ _ H H409).
  unfold bind, throw. rewrite poll_reportError. simpl.
  rewrite app_nil_r. reflexivity.
Qed.

Lemma poll_tick_live id ans st :
  existsb (Nat.eqb id) (timers st) = true ->
  tick config id ans st = pollCycle config ans st.
Proof. intros H. unfold tick. rewrite H. reflexivity. Qed.

(** The watermark after any poll cycle. *)
Lemma poll_cycle_watermark ans st :
  lastMessageTimestamp (state_of (pollCycle config ans st))
  = match settle ans with
    | Return msgs => advance (lastMessageTimestamp st) msgs
    | Throw _ => lastMessageTimestamp st
    end.
Proof.
  destruct (is_failure ans) eqn:E.
  - rewrite (poll_cycle_failure _ _ E), (settle_failure _ E). reflexivity.
  - destruct (settle_success _ E) as (status & msgs & -> & Hs & ->).
    rewrite (poll_cycle_success _ _ _ Hs). reflexivity.
Qed.

Lemma poll_start_registered ans st t :
  registerAgent config ans st = (Return tt, st, t) ->
  start config ans st
  = (Return tt,
     mkState (Some (nextTimer st)) (lastMessageTimestamp st)
             (messageCallback st) (errorCallback st)
             (nextTimer st :: timers st) (S (nextTimer st)),
     t ++ [EvSetInterval (nextTimer st) 5000]).
Proof.
  intros H. unfold start, try_catch, bind at 1. rewrite H.
  reflexivity.
Qed.

Lemma conflict_answer {A} (ans : ServerAnswer A) :
  responseStatusIs 409 (rejection ans) = true ->
  exists data, ans = Answer 409 data.
Proof.
  destruct ans as [status data|]; simpl; [|discriminate].
  intros H. apply Z.eqb_eq in H. subst. eauto.
Qed.

(** Registration either returns, leaving the state as it was, or throws the
    rejection of a failing request other than a conflict. *)
Lemma poll_registerAgent_cases ans st :
  (exists t, registerAgent config ans st = (Return tt, st, t)
             /\ watermark_writes t = [] /\ intervals_started t = [])
  \/ (is_failure ans = true /\ responseStatusIs 409 (rejection ans) = false).
Proof.
  destruct (is_failure ans) eqn:E.
  - destruct (responseStatusIs 409 (rejection ans)) eqn:E409.
    + left. destruct (conflict_answer _ E409) as [data ->].
      rewrite poll_registerAgent_conflict. eexists. split; [reflexivity|].
      destruct (errorCallback st); split; reflexivity.
    + right. split; reflexivity.
  - left. destruct (settle_success _ E) as (status & data & -> & Hs & _).
    rewrite (poll_registerAgent_success _ _ _ Hs). eexists.
    split; [reflexivity|]. split; reflexivity.
Qed.

Lemma watermark_writes_app (t1 t2 : Trace) :
  watermark_writes (t1 ++ t2) = watermark_writes t1 ++ watermark_writes t2.
Proof. apply flat_map_app. Qed.

Lemma watermark_writes_errors cb e :
  watermark_writes (error_events cb e) = [].
Proof. destruct cb; reflexivity. Qed.

Lemma poll_unary_quiet {A} m path p (ans : ServerAnswer A) (st : State) :
  let o := try_catch (api config m path p ans)
                     (fun error => reportError error ;; throw error) st in
  state_of o = st /\ watermark_writes (trace_of o) = [].
Proof.
  answer_cases ans E Hs.
  - rewrite (poll_unary_failure _ _ _ _ _ E). cbn. split; [reflexivity|].
    rewrite watermark_writes_app, !watermark_writes_errors. reflexivity.
  - rewrite (poll_unary_success _ _ _ _ _ _ Hs). split; reflexivity.
Qed.

Lemma poll_getMessages_quiet since ans st :
  let o := getMessages config since ans st in
  state_of o = st /\ watermark_writes (trace_of o) = [].
Proof.
  answer_cases ans E Hs.
  - rewrite (poll_getMessages_failure _ _ _ E). cbn. split; [reflexivity|].
    rewrite watermark_writes_app, !watermark_writes_errors. reflexivity.
  - rewrite (poll_getMessages_success _ _ _ _ Hs). split; reflexivity.
Qed.

(** No operation but a timer tick touches the watermark. *)
Lemma poll_exec_other op st :
  is_tick op = false ->
  lastMessageTimestamp (fst (exec config op st)) = lastMessageTimestamp st
  /\ watermark_writes (snd (exec config op st)) = [].
Proof.
  destruct op as [cb|cb|ans| |to body options ans|since ans|agentId ans
                  |ans|id ans]; intros Ht; try discriminate Ht;
    unfold exec, void; cbn [fst snd].
  - split; reflexivity.
  - split; reflexivity.
  - destruct (poll_registerAgent_cases ans st) as [(t & Hr & Hw & _)|[E E409]].
    + rewrite (poll_start_registered _ _ _ Hr). cbn. split; [reflexivity|].
      rewrite watermark_writes_app, Hw. reflexivity.
    + rewrite (poll_start_failure _ _ E E409). cbn. split; [reflexivity|].
      rewrite watermark_writes_app, !watermark_writes_errors. reflexivity.
  - unfold stop, bind, get. destruct (pollInterval st); split; reflexivity.
  - unfold sendMessage.
    destruct (poll_unary_quiet POST "/messages"
                (MessageBody to body (privateKey config) options) ans st)
      as [-> Hw]. split; [reflexivity | exact Hw].
  - destruct (poll_getMessages_quiet since ans st) as [-> Hw].
    split; [reflexivity | exact Hw].
  - unfold getAgent.
    destruct (poll_unary_quiet GET (String.append "/agents/" agentId)
                NoPayload ans st) as [-> Hw].
    split; [reflexivity | exact Hw].
  - unfold listAgents.
    destruct (poll_unary_quiet GET "/agents" NoPayload ans st) as [-> Hw].
    split; [reflexivity | exact Hw].
Qed.

Lemma poll_exec_monotone op st :
  lastMessageTimestamp st <= lastMessageTimestamp (fst (exec config op st)).
Proof.
  destruct (is_tick op) eqn:Ht.
  - destruct op; try discriminate Ht. unfold exec, void; cbn [fst].
    unfold tick. destruct (existsb _ _); [|cbn; lia].
    rewrite poll_cycle_watermark. destruct (settle ans); [|lia].
    apply advance_ge.
  - destruct (poll_exec_other op st Ht) as [-> _]. lia.
Qed.

Lemma poll_run_monotone ops st :
  lastMessageTimestamp st <= lastMessageTimestamp (fst (run config ops st)).
Proof.
  revert st. induction ops as [|op ops IH]; intros st; cbn [run].
  - cbn. lia.
  - pose proof (poll_exec_monotone op st) as H1.
    destruct (exec config op st) as [st1 t1]. cbn [fst] in H1.
    specialize (IH st1). destruct (run config ops st1) as [st2 t2].
    cbn [fst] in *. lia.
Qed.

Lemma requests_app (t1 t2 : Trace) :
  requests (t1 ++ t2) = requests t1 ++ requests t2.
Proof. apply flat_map_app. Qed.

Lemma requests_errors cb e : requests (error_events cb e) = [].
Proof. destruct cb; reflexivity. Qed.

Lemma requests_cycle_events cb w ms : requests (cycle_events cb w ms) = [].
Proof.
  revert w. induction ms as [|m ms IH]; intros w; simpl; [reflexivity|].
  rewrite requests_app, IH. destruct cb; reflexivity.
Qed.

(** Every call of [getMessages] issues exactly one request, whose [since]
    parameter is [since || this.lastMessageTimestamp]. *)
Lemma poll_getMessages_requests since ans st :
  requests (trace_of (getMessages config since ans st))
  = [messagesRequest config (num_or since (lastMessageTimestamp st))].
Proof.
  answer_cases ans E Hs.
  - rewrite (poll_getMessages_failure _ _ _ E). cbn.
    rewrite requests_app, !requests_errors. reflexivity.
  - rewrite (poll_getMessages_success _ _ _ _ Hs). reflexivity.
Qed.

(** Every poll cycle issues exactly one request, at the watermark. *)
Lemma poll_cycle_requests ans st :
  requests (trace_of (pollCycle config ans st))
  = [messagesRequest config (lastMessageTimestamp st)].
Proof.
  answer_cases ans E Hs.
  - rewrite (poll_cycle_failure _ _ E). cbn.
    rewrite !requests_app, !requests_errors. reflexivity.
  - rewrite (poll_cycle_success _ _ _ Hs). cbn.
    rewrite requests_cycle_events. reflexivity.
Qed.

End PollingFacts.

(** ** The push client: what each operation does *)

Section PushFacts.

Import Push.

Variable config : OpenPondConfig.
Variable parseURL : string -> string + string.
Variable JSON_parse : string -> Json + string.

Lemma push_reportError (e : Exn) (st : State) :
  reportError e st = (Return tt, st, error_events (errorCallback st) e).
Proof. unfold reportError, error_events. destruct (errorCallback st); reflexivity. Qed.

Lemma push_api_failure {A} m path p (ans : ServerAnswer A) (st : State) :
  is_failure ans = true ->
  api config m path p ans st
  = (Throw (rejection ans), st,
     EvHttp (mkRequest m path (defaultHeaders config) p)
       :: error_events (errorCallback st) (rejection ans)).
Proof.
  intros H. unfold api, bind, emit. rewrite (settle_failure ans H).
  unfold bind, throw. rewrite push_reportError. simpl.
  rewrite app_nil_r. reflexivity.
Qed.

Lemma push_unary_failure {A} m path p (ans : ServerAnswer A) (st : State) :
  is_failure ans = true ->
  try_catch (api config m path p ans)
            (fun error => reportError error ;; throw error) st
  = (Throw (rejection ans), st,
     EvHttp (mkRequest m path (defaultHeaders config) p)
       :: error_events (errorCallback st) (rejection ans)
       ++ error_events (errorCallback st) (rejection ans)).
Proof.
  intros H. unfold try_catch. rewrite (push_api_failure _ _ _ _ _ H).
  unfold bind, throw. rewrite push_reportError. simpl.
  rewrite app_nil_r. reflexivity.
Qed.

Lemma push_registerAgent_conflict data st :
  registerAgent config (Answer 409 data) st
  = (Return tt, st,
     EvHttp (registerRequest config)
       :: error_events (errorCallback st) (AxiosError (Some 409))).
Proof.
  unfold registerAgent, try_catch.
  rewrite push_api_failure by reflexivity. simpl.
  rewrite app_nil_r. reflexivity.
Qed.

Lemma push_registerAgent_failure ans st :
  is_failure ans = true ->
  responseStatusIs 409 (rejection ans) = false ->
  registerAgent config ans st
  = (Throw (rejection ans), st,
     EvHttp (registerRequest config)
       :: error_events (errorCallback st) (rejection ans)).
Proof.
  intros H H409. unfold registerAgent, try_catch.
  rewrite (push_api_failure _ _ _ _ _ H). rewrite H409, andb_false_r.
  unfold throw. rewrite app_nil_r. reflexivity.
Qed.

Lemma instanceofError_rejection {A} (ans : ServerAnswer A) :
  instanceofError (rejection ans) = true.
Proof. destruct ans; reflexivity. Qed.

Lemma push_start_failure now ans st :
  is_failure ans = true ->
  responseStatusIs 409 (rejection ans) = false ->
  start config parseURL now ans st
  = (Throw (rejection ans), st,
     EvHttp (registerRequest config)
       :: error_events (errorCallback st) (rejection ans)
       ++ error_events (errorCallback st) (rejection ans)).
Proof.
  intros H H409. unfold start, try_catch, bind at 1.
  rewrite (push_registerAgent_failure _ _ H H409).
  rewrite instanceofError_rejection.
  unfold bind, throw. rewrite push_reportError. simpl.
  rewrite app_nil_r. reflexivity.
Qed.

(** The listener on an event whose payload parses. *)
Lemma push_onStreamMessage_parsed data m st :
  JSON_parse data = inl (JMessage m) ->
  onStreamMessage config JSON_parse data st
  = (Return tt, st,
     if truthy (privateKey config)
        && String.eqb (toAgentId m) (privateKey config)
     then match messageCallback st with
          | Some cb => [EvMessage cb m]
          | None => []
          end
     else []).
Proof.
  intros H. unfold onStreamMessage, try_catch. rewrite H.
  destruct (truthy (privateKey config)
            && String.eqb (toAgentId m) (privateKey config)).
  - unfold deliver. destruct (messageCallback st); reflexivity.
  - reflexivity.
Qed.

(** The listener on a malformed payload. *)
Lemma push_onStreamMessage_malformed data why st :
  JSON_parse data = inr why ->
  onStreamMessage config JSON_parse data st
  = (Return tt, st, error_events (errorCallback st) (ErrorObj why)).
Proof.
  intros H. unfold onStreamMessage, try_catch. rewrite H.
  unfold throw. cbn [instanceofError]. rewrite push_reportError.
  reflexivity.
Qed.

End PushFacts.

(** ** Properties of the two clients *)

Lemma poll_run_app config ops1 ops2 st :
  Polling.run config (ops1 ++ ops2) st
  = (fst (Polling.run config ops2 (fst (Polling.run config ops1 st))),
     snd (Polling.run config ops1 st)
       ++ snd (Polling.run config ops2 (fst (Polling.run config ops1 st)))).
Proof.
  revert st. induction ops1 as [|op ops1 IH]; intros st; cbn [app Polling.run].
  - cbn. destruct (Polling.run config ops2 st); reflexivity.
  - destruct (Polling.exec config op st) as [st1 t1]. rewrite IH.
    destruct (Polling.run config ops1 st1) as [st2 t2]. cbn [fst snd].
    destruct (Polling.run config ops2 st2) as [st3 t3]. cbn [fst snd].
    rewrite app_assoc. reflexivity.
Qed.

(** C1: the watermark never decreases.  Processing one message of a poll
    cycle leaves the watermark at the maximum of its previous value and the
    message's timestamp; hence a poll cycle never lowers it, and along any
    sequence of operations and timer ticks the watermark reached after a
    longer run is at least the one reached after any prefix of it. *)
Theorem watermark_never_decreases :
  (forall (message : Message) (st : Polling.State),
      Polling.lastMessageTimestamp
        (state_of (Polling.processMessage message st))
      = Z.max (Polling.lastMessageTimestamp st) (timestamp message))
  /\ (forall config id ans (st : Polling.State),
         Polling.lastMessageTimestamp st
         <= Polling.lastMessageTimestamp
              (state_of (Polling.tick config id ans st)))
  /\ (forall config ops1 ops2 (st : Polling.State),
         Polling.lastMessageTimestamp (fst (Polling.run config ops1 st))
         <= Polling.lastMessageTimestamp
              (fst (Polling.run config (ops1 ++ ops2) st))).
Proof.
  split; [|split].
  - intros message st. rewrite poll_processMessage. reflexivity.
  - intros config id ans st.
    exact (poll_exec_monotone config (Polling.OpTick id ans) st).
  - intros config ops1 ops2 st. rewrite poll_run_app. cbn [fst].
    apply poll_run_monotone.
Qed.

(** C2, as stated, fails: a poll cycle of a started client whose watermark
    already stands at 500 receives two messages stamped 100 and 200; both
    are delivered, the largest delivered timestamp is 200, and the
    watermark after the cycle is 500. *)
Lemma watermark_is_not_the_cycle_maximum :
  let st := fst (Polling.exec sampleConfig
                   (Polling.OpTick 0%nat
                      (Answer 200 [sampleMessage "m5" 500]))
                   startedPolling) in
  let o := Polling.tick sampleConfig 0%nat
             (Answer 200 [sampleMessage "m1" 100; sampleMessage "m2" 200])
             st in
  deliveries (trace_of o) = [sampleMessage "m1" 100; sampleMessage "m2" 200]
  /\ max_timestamp (deliveries (trace_of o)) = Some 200
  /\ Polling.lastMessageTimestamp (state_of o) = 500
  /\ Some (Polling.lastMessageTimestamp (state_of o))
     <> max_timestamp (deliveries (trace_of o)).
Proof.
  cbv zeta. repeat split; try reflexivity.
  vm_compute. discriminate.
Qed.

(** C2, amended: in a poll cycle of a live timer whose request is answered
    with a list of messages, each message is handed to the registered
    message callback exactly once, in the order of the answer, and after
    the cycle the watermark is the maximum of its previous value and the
    timestamps of the delivered messages; a following cycle answered with
    the empty list delivers nothing and leaves the watermark where it is. *)
Theorem poll_cycle_delivers_in_order config (st : Polling.State) id cb
        status msgs :
  existsb (Nat.eqb id) (Polling.timers st) = true ->
  Polling.messageCallback st = Some cb ->
  validateStatus status = true ->
  let o := Polling.tick config id (Answer status msgs) st in
  handoffs (trace_of o) = map (pair cb) msgs
  /\ Polling.lastMessageTimestamp (state_of o)
     = match max_timestamp msgs with
       | Some v => Z.max (Polling.lastMessageTimestamp st) v
       | None => Polling.lastMessageTimestamp st
       end
  /\ forall status',
      validateStatus status' = true ->
      let o' := Polling.tick config id (Answer status' []) (state_of o) in
      handoffs (trace_of o') = []
      /\ Polling.lastMessageTimestamp (state_of o')
         = Polling.lastMessageTimestamp (state_of o).
Proof.
  intros Hlive Hcb Hok o. subst o.
  rewrite (poll_tick_live _ _ _ _ Hlive), (poll_cycle_success _ _ _ _ Hok).
  cbn [trace_of state_of fst snd]. rewrite Hcb.
  split; [|split].
  - cbn [handoffs flat_map app]. apply handoffs_cycle_events.
  - cbn. apply advance_max.
  - intros status' Hok'.
    rewrite poll_tick_live by exact Hlive.
    rewrite (poll_cycle_success _ _ _ _ Hok'). split; reflexivity.
Qed.

Lemma poll_cycle_delivers_in_order_witness :
  let o := Polling.tick sampleConfig 0%nat
             (Answer 200 [sampleMessage "m1" 100; sampleMessage "m2" 200])
             startedPolling in
  handoffs (trace_of o)
  = [(7%nat, sampleMessage "m1" 100); (7%nat, sampleMessage "m2" 200)]
  /\ Polling.lastMessageTimestamp (state_of o) = 200
  /\ forall status',
      validateStatus status' = true ->
      let o' := Polling.tick sampleConfig 0%nat (Answer status' [])
                             (state_of o) in
      handoffs (trace_of o') = []
      /\ Polling.lastMessageTimestamp (state_of o')
         = Polling.lastMessageTimestamp (state_of o).
Proof.
  exact (poll_cycle_delivers_in_order sampleConfig startedPolling 0%nat 7%nat
           200 [sampleMessage "m1" 100; sampleMessage "m2" 200]
           eq_refl eq_refl eq_refl).
Defined.

(** C3, as stated, fails: a fresh client registers a message callback,
    starts, and its first poll cycle receives one message stamped 100.  The
    watermark is written (to 100) before the callback is handed the
    message: the mutation does not come after the hand-off. *)
Lemma watermark_written_before_the_handoff :
  let t := snd (Polling.run sampleConfig
                  [Polling.OpOnMessage 7%nat;
                   Polling.OpStart (Answer 200 tt);
                   Polling.OpTick 0%nat (Answer 200 [sampleMessage "m1" 100])]
                  Polling.initial) in
  t = [EvHttp (registerRequest sampleConfig);
       EvSetInterval 0%nat 5000;
       EvHttp (messagesRequest sampleConfig 0);
       EvWatermark 100;
       EvMessage 7%nat (sampleMessage "m1" 100)]
  /\ mutations_follow_handoffs 0 t = false.
Proof. cbv zeta. split; reflexivity. Qed.

(** C3, amended: the watermark is mutated only by the polling loop (no
    operation other than a timer tick changes it or writes it), and for
    each message of a poll cycle the mutation happens immediately before
    that message is handed to the message callback: the cycle's events are
    the request followed, per message in order, by the write of the new
    watermark and then the hand-off, so that in every cycle each hand-off
    follows the write made for its message. *)
Theorem watermark_mutated_by_the_loop_before_handoff
        config (st : Polling.State) :
  (forall op,
      is_tick op = false ->
      Polling.lastMessageTimestamp (fst (Polling.exec config op st))
      = Polling.lastMessageTimestamp st
      /\ watermark_writes (snd (Polling.exec config op st)) = [])
  /\ (forall id status msgs,
         existsb (Nat.eqb id) (Polling.timers st) = true ->
         validateStatus status = true ->
         trace_of (Polling.tick config id (Answer status msgs) st)
         = EvHttp (messagesRequest config (Polling.lastMessageTimestamp st))
             :: cycle_events (Polling.messageCallback st)
                             (Polling.lastMessageTimestamp st) msgs)
  /\ (forall id ans,
         handoffs_follow_mutations 0
           (trace_of (Polling.tick config id ans st)) = true).
Proof.
  split; [|split].
  - intros op Ht. apply poll_exec_other. exact Ht.
  - intros id status msgs Hlive Hok.
    rewrite (poll_tick_live _ _ _ _ Hlive), (poll_cycle_success _ _ _ _ Hok).
    reflexivity.
  - intros id ans. unfold Polling.tick.
    destruct (existsb _ _); [|reflexivity].
    answer_cases ans E Hok.
    + rewrite (poll_cycle_failure _ _ _ E). cbn [trace_of snd].
      cbn [handoffs_follow_mutations].
      destruct (Polling.errorCallback st); reflexivity.
    + rewrite (poll_cycle_success _ _ _ _ Hok). cbn [trace_of snd].
      cbn [handoffs_follow_mutations]. apply handoffs_follow_cycle_events.
Qed.

Lemma watermark_mutated_by_the_loop_before_handoff_witness :
  (Polling.lastMessageTimestamp
     (fst (Polling.exec sampleConfig
             (Polling.OpGetMessages (Some 0) (Answer 200 []))
             startedPolling))
   = Polling.lastMessageTimestamp startedPolling)
  /\ trace_of (Polling.tick sampleConfig 0%nat
                 (Answer 200 [sampleMessage "m1" 100]) startedPolling)
     = [EvHttp (messagesRequest sampleConfig 0);
        EvWatermark 100;
        EvMessage 7%nat (sampleMessage "m1" 100)].
Proof.
  destruct (watermark_mutated_by_the_loop_before_handoff
              sampleConfig startedPolling) as (Hother & Hcycle & _).
  split.
  - exact (proj1 (Hother (Polling.OpGetMessages (Some 0) (Answer 200 []))
                         eq_refl)).
  - exact (Hcycle 0%nat 200 [sampleMessage "m1" 100] eq_refl eq_refl).
Defined.

(** C4, as stated, fails: a push client configured with the empty identity
    has a message callback registered and its stream open; an event whose
    payload parses as a message with the empty recipient matches the
    configured identity, yet it is not handed to the callback. *)
Lemma matching_recipient_not_delivered :
  let parse := fun _ : string => @inl Json string (JMessage blankMessage) in
  let st := state_of (Push.start blankConfig (fun u => inl u) "1700000000000"
                        (Answer 200 tt)
                        (state_of (Push.onMessage 7%nat Push.initial))) in
  Push.messageCallback st = Some 7%nat
  /\ Push.streams st = [0%nat]
  /\ toAgentId blankMessage = privateKey blankConfig
  /\ handoffs (trace_of (Push.streamMessage blankConfig parse 0%nat
                           "{}" st)) = [].
Proof. cbv zeta. repeat split; reflexivity. Qed.

(** C4, amended: for every inbound event that parses as a message, if the
    recipient differs from the configured identity the message is not
    handed to the message callback; if the recipient equals the configured
    identity and that identity is not the empty string, the message is
    handed to the registered message callback, exactly once. *)
Theorem push_filters_by_recipient config JSON_parse (st : Push.State)
        data m cb :
  JSON_parse data = inl (JMessage m) ->
  Push.messageCallback st = Some cb ->
  let o := Push.onStreamMessage config JSON_parse data st in
  (toAgentId m <> privateKey config -> handoffs (trace_of o) = [])
  /\ (toAgentId m = privateKey config ->
      privateKey config <> "" ->
      handoffs (trace_of o) = [(cb, m)]).
Proof.
  intros Hparse Hcb o. subst o.
  rewrite (push_onStreamMessage_parsed _ _ _ _ _ Hparse), Hcb.
  cbn [trace_of snd]. split.
  - intros Hne. apply String.eqb_neq in Hne. rewrite Hne, andb_false_r.
    reflexivity.
  - intros Heq Hid. apply String.eqb_eq in Heq. rewrite Heq.
    apply String.eqb_neq in Hid. unfold truthy. rewrite Hid. reflexivity.
Qed.

Lemma push_filters_by_recipient_witness :
  let parse := fun _ : string =>
                 @inl Json string (JMessage (sampleMessage "m1" 100)) in
  let st := state_of (Push.onMessage 7%nat Push.initial) in
  handoffs (trace_of (Push.onStreamMessage sampleConfig parse "{}" st))
  = [(7%nat, sampleMessage "m1" 100)]
  /\ handoffs (trace_of (Push.onStreamMessage blankConfig parse "{}" st))
     = [].
Proof.
  intros parse st. split.
  - refine (proj2 (push_filters_by_recipient sampleConfig parse st "{}"
                     (sampleMessage "m1" 100) 7%nat eq_refl eq_refl)
                  eq_refl _).
    discriminate.
  - refine (proj1 (push_filters_by_recipient blankConfig parse st "{}"
                     (sampleMessage "m1" 100) 7%nat eq_refl eq_refl) _).
    discriminate.
Defined.

(** C5: registration is idempotent with respect to conflicts.  In both
    clients, when the registration endpoint answers 409, [registerAgent]
    returns instead of raising and leaves the client as it was, and a
    [start] of the polling client whose registration is answered 409
    resolves as well. *)
Theorem registration_conflict_is_success :
  (forall config data (st : Polling.State),
      result_of (Polling.registerAgent config (Answer 409 data) st)
      = Return tt
      /\ state_of (Polling.registerAgent config (Answer 409 data) st) = st
      /\ result_of (Polling.start config (Answer 409 data) st) = Return tt)
  /\ (forall config data (st : Push.State),
         result_of (Push.registerAgent config (Answer 409 data) st)
         = Return tt
         /\ state_of (Push.registerAgent config (Answer 409 data) st) = st).
Proof.
  split.
  - intros config data st. rewrite poll_registerAgent_conflict.
    repeat split.
    rewrite (poll_start_registered config _ _ _
               (poll_registerAgent_conflict config data st)).
    reflexivity.
  - intros config data st. rewrite push_registerAgent_conflict.
    split; reflexivity.
Qed.

Lemma In_error_events_twice cb e (r : Request) :
  In (EvError cb e)
     (EvHttp r :: error_events (Some cb) e ++ error_events (Some cb) e).
Proof. simpl. auto. Qed.

(** C6: dual notification.  In both clients, when the request of
    [sendMessage], [getMessages], [getAgent] or [listAgents] fails (a
    non-2xx answer or no response at all) and an error callback is
    registered, the operation invokes that callback with the error and
    rejects with the same error. *)
Theorem unary_failure_reports_and_rethrows :
  (forall config (st : Polling.State) cb,
      Polling.errorCallback st = Some cb ->
      (forall to body options ans,
          is_failure ans = true ->
          DualNotification cb (rejection ans)
            (Polling.sendMessage config to body options ans st))
      /\ (forall since ans,
             is_failure ans = true ->
             DualNotification cb (rejection ans)
               (Polling.getMessages config since ans st))
      /\ (forall agentId ans,
             is_failure ans = true ->
             DualNotification cb (rejection ans)
               (Polling.getAgent config agentId ans st))
      /\ (forall ans,
             is_failure ans = true ->
             DualNotification cb (rejection ans)
               (Polling.listAgents config ans st)))
  /\ (forall config (st : Push.State) cb,
         Push.errorCallback st = Some cb ->
         (forall to body options ans,
             is_failure ans = true ->
             DualNotification cb (rejection ans)
               (Push.sendMessage config to body options ans st))
         /\ (forall since ans,
                is_failure ans = true ->
                DualNotification cb (rejection ans)
                  (Push.getMessages config since ans st))
         /\ (forall agentId ans,
                is_failure ans = true ->
                DualNotification cb (rejection ans)
                  (Push.getAgent config agentId ans st))
         /\ (forall ans,
                is_failure ans = true ->
                DualNotification cb (rejection ans)
                  (Push.listAgents config ans st))).
Proof.
  split; intros config st cb Hcb;
    (split; [|split; [|split]]); intros; unfold DualNotification.
  all: try unfold Polling.sendMessage, Polling.getAgent, Polling.listAgents.
  all: try unfold Push.sendMessage, Push.getMessages, Push.getAgent,
         Push.listAgents.
  all: first [ rewrite poll_getMessages_failure by assumption
             | rewrite poll_unary_failure by assumption
             | rewrite push_unary_failure by assumption ].
  all: rewrite Hcb; split; [reflexivity | apply In_error_events_twice].
Qed.

Lemma unary_failure_reports_and_rethrows_witness :
  DualNotification 8%nat (AxiosError (Some 500))
    (Polling.sendMessage sampleConfig "0xB0B" "hello" None
       (Answer 500 "") startedPolling)
  /\ DualNotification 8%nat (AxiosError None)
       (Push.listAgents sampleConfig NoResponse
          (state_of (Push.onError 8%nat Push.initial))).
Proof.
  split.
  - exact (proj1 (proj1 unary_failure_reports_and_rethrows sampleConfig
                    startedPolling 8%nat eq_refl)
                 "0xB0B" "hello" None (Answer 500 "") eq_refl).
  - exact (proj2 (proj2 (proj2
             (proj2 unary_failure_reports_and_rethrows sampleConfig
                (state_of (Push.onError 8%nat Push.initial)) 8%nat eq_refl)))
             NoResponse eq_refl).
Defined.

(** C7: a failed poll cycle does not stop polling.  When the request of a
    poll cycle fails, the interval handler itself completes, the failure
    is reported to the registered error callback, exactly one request was
    issued in the cycle (no retry within it), no timer is cleared and the
    client is left as it was, so that the next tick of the same timer runs
    and issues [GET /messages] again, at the same watermark. *)
Theorem failed_poll_cycle_keeps_polling config (st : Polling.State) id ans :
  existsb (Nat.eqb id) (Polling.timers st) = true ->
  is_failure ans = true ->
  let o := Polling.tick config id ans st in
  result_of o = Return tt
  /\ (forall cb, Polling.errorCallback st = Some cb ->
                 In (EvError cb (rejection ans)) (trace_of o))
  /\ requests (trace_of o)
     = [messagesRequest config (Polling.lastMessageTimestamp st)]
  /\ intervals_cleared (trace_of o) = []
  /\ state_of o = st
  /\ forall ans',
      requests (trace_of (Polling.tick config id ans' (state_of o)))
      = [messagesRequest config (Polling.lastMessageTimestamp st)].
Proof.
  intros Hlive Hfail o. subst o.
  rewrite (poll_tick_live _ _ _ _ Hlive).
  split; [|split; [|split; [|split; [|split]]]].
  - rewrite (poll_cycle_failure _ _ _ Hfail). reflexivity.
  - intros cb Hcb. rewrite (poll_cycle_failure _ _ _ Hfail), Hcb.
    simpl. auto.
  - apply poll_cycle_requests.
  - rewrite (poll_cycle_failure _ _ _ Hfail).
    destruct (Polling.errorCallback st); reflexivity.
  - rewrite (poll_cycle_failure _ _ _ Hfail). reflexivity.
  - intros ans'. rewrite (poll_cycle_failure _ _ _ Hfail).
    cbn [state_of fst]. rewrite (poll_tick_live _ _ _ _ Hlive).
    apply poll_cycle_requests.
Qed.

Lemma failed_poll_cycle_keeps_polling_witness :
  let o := Polling.tick sampleConfig 0%nat (Answer 503 []) startedPolling in
  result_of o = Return tt
  /\ In (EvError 8%nat (AxiosError (Some 503))) (trace_of o)
  /\ state_of o = startedPolling
  /\ requests (trace_of (Polling.tick sampleConfig 0%nat NoResponse
                           (state_of o)))
     = [messagesRequest sampleConfig 0].
Proof.
  destruct (failed_poll_cycle_keeps_polling sampleConfig startedPolling
              0%nat (Answer 503 []) eq_refl eq_refl)
    as (Hres & Hrep & _ & _ & Hst & Hnext).
  split; [exact Hres|]. split; [exact (Hrep 8%nat eq_refl)|].
  split; [exact Hst|]. exact (Hnext NoResponse).
Defined.

(** C8: [start] is atomic on registration failure.  In both clients, when
    the registration request fails with anything but a conflict, [start]
    rejects with that error and leaves the client exactly as it was: the
    polling client starts no interval (its [pollInterval] stays null), and
    the push client opens no event stream (its [eventSource] stays
    null). *)
Theorem start_is_atomic_on_registration_failure :
  (forall config ans (st : Polling.State),
      is_failure ans = true ->
      responseStatusIs 409 (rejection ans) = false ->
      let o := Polling.start config ans st in
      result_of o = Throw (rejection ans)
      /\ state_of o = st
      /\ intervals_started (trace_of o) = []
      /\ (Polling.pollInterval st = None ->
          Polling.pollInterval (state_of o) = None))
  /\ (forall config parseURL now ans (st : Push.State),
         is_failure ans = true ->
         responseStatusIs 409 (rejection ans) = false ->
         let o := Push.start config parseURL now ans st in
         result_of o = Throw (rejection ans)
         /\ state_of o = st
         /\ streams_opened (trace_of o) = []
         /\ (Push.eventSource st = None ->
             Push.eventSource (state_of o) = None)).
Proof.
  split.
  - intros config ans st Hfail H409 o. subst o.
    rewrite (poll_start_failure _ _ _ Hfail H409).
    split; [reflexivity|]. split; [reflexivity|]. split; [|auto].
    cbn. destruct (Polling.errorCallback st); reflexivity.
  - intros config parseURL now ans st Hfail H409 o. subst o.
    rewrite (push_start_failure _ _ _ _ _ Hfail H409).
    split; [reflexivity|]. split; [reflexivity|]. split; [|auto].
    cbn. destruct (Push.errorCallback st); reflexivity.
Qed.

Lemma start_is_atomic_on_registration_failure_witness :
  (result_of (Polling.start sampleConfig (Answer 500 tt) Polling.initial)
   = Throw (AxiosError (Some 500))
   /\ Polling.pollInterval
        (state_of (Polling.start sampleConfig (Answer 500 tt)
                                 Polling.initial)) = None)
  /\ (result_of (Push.start sampleConfig (fun u => inl u) "1700000000000"
                            NoResponse Push.initial)
      = Throw (AxiosError None)
      /\ Push.eventSource
           (state_of (Push.start sampleConfig (fun u => inl u)
                                 "1700000000000" NoResponse Push.initial))
         = None).
Proof.
  split.
  - destruct (proj1 start_is_atomic_on_registration_failure sampleConfig
                (Answer 500 tt) Polling.initial eq_refl eq_refl)
      as (Hres & _ & _ & Hnull).
    split; [exact Hres | exact (Hnull eq_refl)].
  - destruct (proj2 start_is_atomic_on_registration_failure sampleConfig
                (fun u => inl u) "1700000000000" NoResponse Push.initial
                eq_refl eq_refl)
      as (Hres & _ & _ & Hnull).
    split; [exact Hres | exact (Hnull eq_refl)].
Defined.

(** C9: one failure, two reports.  In both clients, with an error callback
    registered, a failing request is first reported by the response
    interceptor of the axios instance (the request through [api] alone
    already carries one invocation of the callback), and each of
    [sendMessage], [getMessages], [getAgent] and [listAgents] reports it
    once more from its own [catch] block: the callback is invoked twice
    with the same error, after the single request and before the call
    rejects with that error. *)
Theorem unary_failure_reports_twice :
  (forall config (st : Polling.State) cb,
      Polling.errorCallback st = Some cb ->
      (forall (A : Type) m path p (ans : ServerAnswer A),
          is_failure ans = true ->
          trace_of (Polling.api config m path p ans st)
          = [EvHttp (mkRequest m path (defaultHeaders config) p);
             EvError cb (rejection ans)])
      /\ (forall to body options ans,
             is_failure ans = true ->
             ReportedTwice cb
               (mkRequest POST "/messages" (defaultHeaders config)
                  (MessageBody to body (privateKey config) options))
               (rejection ans)
               (Polling.sendMessage config to body options ans st))
      /\ (forall since ans,
             is_failure ans = true ->
             ReportedTwice cb
               (messagesRequest config
                  (num_or since (Polling.lastMessageTimestamp st)))
               (rejection ans)
               (Polling.getMessages config since ans st))
      /\ (forall agentId ans,
             is_failure ans = true ->
             ReportedTwice cb
               (mkRequest GET (String.append "/agents/" agentId)
                  (defaultHeaders config) NoPayload)
               (rejection ans)
               (Polling.getAgent config agentId ans st))
      /\ (forall ans,
             is_failure ans = true ->
             ReportedTwice cb
               (mkRequest GET "/agents" (defaultHeaders config) NoPayload)
               (rejection ans)
               (Polling.listAgents config ans st)))
  /\ (forall config (st : Push.State) cb,
         Push.errorCallback st = Some cb ->
         (forall (A : Type) m path p (ans : ServerAnswer A),
             is_failure ans = true ->
             trace_of (Push.api config m path p ans st)
             = [EvHttp (mkRequest m path (defaultHeaders config) p);
                EvError cb (rejection ans)])
         /\ (forall to body options ans,
                is_failure ans = true ->
                ReportedTwice cb
                  (mkRequest POST "/messages" (defaultHeaders config)
                     (MessageBody to body (privateKey config) options))
                  (rejection ans)
                  (Push.sendMessage config to body options ans st))
         /\ (forall since ans,
                is_failure ans = true ->
                ReportedTwice cb
                  (messagesRequest config (num_or since 0))
                  (rejection ans)
                  (Push.getMessages config since ans st))
         /\ (forall agentId ans,
                is_failure ans = true ->
                ReportedTwice cb
                  (mkRequest GET (String.append "/agents/" agentId)
                     (defaultHeaders config) NoPayload)
                  (rejection ans)
                  (Push.getAgent config agentId ans st))
         /\ (forall ans,
                is_failure ans = true ->
                ReportedTwice cb
                  (mkRequest GET "/agents" (defaultHeaders config) NoPayload)
                  (rejection ans)
                  (Push.listAgents config ans st))).
Proof.
  split; intros config st cb Hcb;
    (split; [|split; [|split; [|split]]]); intros; unfold ReportedTwice.
  all: try unfold Polling.sendMessage, Polling.getAgent, Polling.listAgents.
  all: try unfold Push.sendMessage, Push.getMessages, Push.getAgent,
         Push.listAgents.
  all: first [ rewrite poll_api_failure by assumption
             | rewrite push_api_failure by assumption
             | rewrite poll_getMessages_failure by assumption
             | rewrite poll_unary_failure by assumption
             | rewrite push_unary_failure by assumption ].
  all: rewrite Hcb; first [ reflexivity | split; reflexivity ].
Qed.

Lemma unary_failure_reports_twice_witness :
  ReportedTwice 8%nat (messagesRequest sampleConfig 0)
    (AxiosError (Some 404))
    (Polling.getMessages sampleConfig None (Answer 404 []) startedPolling)
  /\ ReportedTwice 8%nat
       (mkRequest GET "/agents/0xB0B" (defaultHeaders sampleConfig) NoPayload)
       (AxiosError None)
       (Push.getAgent sampleConfig "0xB0B" NoResponse
          (state_of (Push.onError 8%nat Push.initial))).
Proof.
  split.
  - exact (proj1 (proj2 (proj2
             (proj1 unary_failure_reports_twice sampleConfig startedPolling
                8%nat eq_refl)))
             None (Answer 404 []) eq_refl).
  - exact (proj1 (proj2 (proj2 (proj2
             (proj2 unary_failure_reports_twice sampleConfig
                (state_of (Push.onError 8%nat Push.initial)) 8%nat
                eq_refl))))
             "0xB0B" NoResponse eq_refl).
Defined.

(** C10: in the polling client a falsy [since] is replaced by the
    watermark.  [getMessages] called without [since], or with [since = 0],
    queries the server with [since] set to the current watermark; only a
    nonzero [since] reaches the server as given.  Hence, once the watermark
    has left 0, no call of [getMessages(0)] asks for the history from 0. *)
Theorem getMessages_falsy_since_is_the_watermark
        config (st : Polling.State) ans :
  requests (trace_of (Polling.getMessages config None ans st))
  = [messagesRequest config (Polling.lastMessageTimestamp st)]
  /\ requests (trace_of (Polling.getMessages config (Some 0) ans st))
     = [messagesRequest config (Polling.lastMessageTimestamp st)]
  /\ (forall since,
         since <> 0 ->
         requests (trace_of (Polling.getMessages config (Some since) ans st))
         = [messagesRequest config since])
  /\ (Polling.lastMessageTimestamp st <> 0 ->
      requests (trace_of (Polling.getMessages config (Some 0) ans st))
      <> [messagesRequest config 0]).
Proof.
  split; [|split; [|split]].
  - apply poll_getMessages_requests.
  - apply poll_getMessages_requests.
  - intros since Hne. rewrite poll_getMessages_requests. cbn [num_or].
    apply Z.eqb_neq in Hne. rewrite Hne. reflexivity.
  - intros Hne. rewrite poll_getMessages_requests. cbn [num_or Z.eqb].
    unfold messagesRequest. intros Heq. apply Hne. congruence.
Qed.

Lemma getMessages_falsy_since_is_the_watermark_witness :
  let st := fst (Polling.exec sampleConfig
                   (Polling.OpTick 0%nat
                      (Answer 200 [sampleMessage "m5" 500]))
                   startedPolling) in
  requests (trace_of (Polling.getMessages sampleConfig (Some 0)
                        (Answer 200 []) st))
  = [messagesRequest sampleConfig 500]
  /\ requests (trace_of (Polling.getMessages sampleConfig (Some 42)
                           (Answer 200 []) st))
     = [messagesRequest sampleConfig 42]
  /\ requests (trace_of (Polling.getMessages sampleConfig (Some 0)
                           (Answer 200 []) st))
     <> [messagesRequest sampleConfig 0].
Proof.
  intros st.
  destruct (getMessages_falsy_since_is_the_watermark sampleConfig st
              (Answer 200 [])) as (_ & Hzero & Hnz & Hhist).
  split; [exact Hzero|]. split.
  - apply Hnz. discriminate.
  - apply Hhist. discriminate.
Defined.

(** ** Further properties of the polling client *)

Section PollingMore.

Import Polling.

Variable config : OpenPondConfig.

Lemma poll_start_success status data st :
  validateStatus status = true ->
  start config (Answer status data) st
  = (Return tt,
     mkState (Some (nextTimer st)) (lastMessageTimestamp st)
             (messageCallback st) (errorCallback st)
             (nextTimer st :: timers st) (S (nextTimer st)),
     [EvHttp (registerRequest config); EvSetInterval (nextTimer st) 5000]).
Proof.
  intros H.
  rewrite (poll_start_registered config _ _ _
             (poll_registerAgent_success config _ data st H)).
  reflexivity.
Qed.

Lemma poll_stop_some st id :
  pollInterval st = Some id ->
  stop st
  = (Return tt,
     mkState None (lastMessageTimestamp st) (messageCallback st)
             (errorCallback st)
             (filter (fun t => negb (Nat.eqb t id)) (timers st))
             (nextTimer st),
     [EvClearInterval id]).
Proof.
  intros H. unfold stop, bind, get. rewrite H. reflexivity.
Qed.

Lemma poll_stop_none st :
  pollInterval st = None -> stop st = (Return tt, st, []).
Proof.
  intros H. unfold stop, bind, get. rewrite H. reflexivity.
Qed.

Lemma existsb_cleared id ts :
  existsb (Nat.eqb id) (filter (fun t => negb (Nat.eqb t id)) ts) = false.
Proof.
  induction ts as [|t ts IH]; simpl; [reflexivity|].
  destruct (Nat.eqb t id) eqn:E; simpl; [exact IH|].
  rewrite IH, Nat.eqb_sym, E. reflexivity.
Qed.

Lemma existsb_kept id other ts :
  id <> other ->
  existsb (Nat.eqb id) (filter (fun t => negb (Nat.eqb t other)) ts)
  = existsb (Nat.eqb id) ts.
Proof.
  intros Hne. induction ts as [|t ts IH]; simpl; [reflexivity|].
  destruct (Nat.eqb t other) eqn:E; simpl.
  - apply Nat.eqb_eq in E. subst t.
    destruct (Nat.eqb id other) eqn:E'; [|exact IH].
    apply Nat.eqb_eq in E'. contradiction.
  - rewrite IH. reflexivity.
Qed.

Lemma advance_idempotent ms w : advance (advance w ms) ms = advance w ms.
Proof.
  rewrite !advance_max. destruct (max_timestamp ms); lia.
Qed.

Lemma deliveries_app (t1 t2 : Trace) :
  deliveries (t1 ++ t2) = deliveries t1 ++ deliveries t2.
Proof. apply flat_map_app. Qed.

Lemma deliveries_errors cb e : deliveries (error_events cb e) = [].
Proof. destruct cb; reflexivity. Qed.

Lemma deliveries_cycle_bound cb ms w m :
  In m (deliveries (cycle_events cb w ms)) -> timestamp m <= advance w ms.
Proof.
  revert w. induction ms as [|m0 ms IH]; intros w; simpl; [tauto|].
  rewrite deliveries_app. intros H. apply in_app_or in H.
  unfold advance. simpl. fold (advance (Z.max w (timestamp m0)) ms).
  destruct H as [H|H].
  - destruct cb; simpl in H; [|tauto]. destruct H as [<-|[]].
    pose proof (advance_ge ms (Z.max w (timestamp m0))). lia.
  - apply IH. exact H.
Qed.

Lemma poll_unary_no_delivery {A} m path p (ans : ServerAnswer A) (st : State) :
  deliveries (trace_of (try_catch (api config m path p ans)
                          (fun error => reportError error ;; throw error) st))
  = [].
Proof.
  answer_cases ans E Hs.
  - rewrite (poll_unary_failure _ _ _ _ _ _ E). cbn.
    rewrite deliveries_app, !deliveries_errors. reflexivity.
  - rewrite (poll_unary_success _ _ _ _ _ _ _ Hs). reflexivity.
Qed.

(** Whatever an operation hands to the message callback is stamped at most
    the watermark it leaves behind. *)
Lemma poll_exec_deliveries_bound op st m :
  In m (deliveries (snd (exec config op st))) ->
  timestamp m <= lastMessageTimestamp (fst (exec config op st)).
Proof.
  destruct op as [cb|cb|ans| |to body options ans|since ans|agentId ans
                  |ans|id ans]; unfold exec, void; cbn [fst snd].
  - cbn. tauto.
  - cbn. tauto.
  - destruct (poll_registerAgent_cases config ans st)
      as [(t & Hr & _ & _)|[E E409]].
    + rewrite (poll_start_registered _ _ _ _ Hr). cbn [trace_of snd].
      rewrite deliveries_app. cbn [deliveries flat_map app].
      rewrite app_nil_r. revert Hr. unfold registerAgent. intros Hr.
      pose proof (poll_unary_no_delivery POST "/agents/register"
                    (RegisterBody (privateKey config) (agentName config))
                    ans st) as Hq.
      assert (Ht : deliveries t = []).
      { revert Hr. answer_cases ans E Hs.
        - destruct (responseStatusIs 409 (rejection ans)) eqn:E409.
          + destruct (conflict_answer _ E409) as [data ->].
            fold (registerAgent config (Answer 409 data)).
            rewrite poll_registerAgent_conflict. intros [= <-]. cbn.
            apply deliveries_errors.
          + fold (registerAgent config ans).
            rewrite (poll_registerAgent_failure _ _ _ E E409). discriminate.
        - fold (registerAgent config (Answer status data)).
          rewrite (poll_registerAgent_success _ _ _ _ Hs).
          intros [= <-]. reflexivity. }
      rewrite Ht. simpl. tauto.
    + rewrite (poll_start_failure _ _ _ E E409). cbn [trace_of snd].
      change (EvHttp (registerRequest config)
                :: error_events (errorCallback st) (rejection ans)
                ++ error_events (errorCallback st) (rejection ans))
        with ([EvHttp (registerRequest config)]
                ++ error_events (errorCallback st) (rejection ans)
                ++ error_events (errorCallback st) (rejection ans)).
      rewrite !deliveries_app, !deliveries_errors. simpl. tauto.
  - unfold stop, bind, get. destruct (pollInterval st); cbn; tauto.
  - unfold sendMessage. rewrite poll_unary_no_delivery. simpl. tauto.
  - unfold getMessages.
    answer_cases ans E Hs.
    + fold (getMessages config since ans).
      rewrite (poll_getMessages_failure _ _ _ _ E). cbn [trace_of snd].
      change (EvHttp ?r :: ?a ++ ?b) with ([EvHttp r] ++ a ++ b).
      rewrite !deliveries_app, !deliveries_errors. simpl. tauto.
    + fold (getMessages config since (Answer status data)).
      rewrite (poll_getMessages_success _ _ _ _ _ Hs). cbn. tauto.
  - unfold getAgent. rewrite poll_unary_no_delivery. simpl. tauto.
  - unfold listAgents. rewrite poll_unary_no_delivery. simpl. tauto.
  - unfold tick. destruct (existsb _ _); [|cbn; tauto].
    answer_cases ans E Hs.
    + rewrite (poll_cycle_failure _ _ _ E). cbn [trace_of snd state_of fst].
      change (EvHttp ?r :: ?a ++ ?b ++ ?c) with ([EvHttp r] ++ a ++ b ++ c).
      rewrite !deliveries_app, !deliveries_errors. simpl. tauto.
    + rewrite (poll_cycle_success _ _ _ _ Hs).
      cbn [trace_of snd state_of fst deliveries flat_map app].
      cbn [set_lastMessageTimestamp lastMessageTimestamp].
      apply deliveries_cycle_bound.
Qed.

End PollingMore.

(** X1: the callback slots are single: registering a second message (or
    error) callback replaces the first.  After two registrations a poll
    cycle hands every message to the second callback only, and a failing
    [sendMessage] reports to the second error callback only. *)
Theorem poll_last_registration_wins config (st : Polling.State)
        cb1 cb2 id status msgs :
  existsb (Nat.eqb id) (Polling.timers st) = true ->
  validateStatus status = true ->
  handoffs
    (trace_of
       (Polling.tick config id (Answer status msgs)
          (state_of (Polling.onMessage cb2
                       (state_of (Polling.onMessage cb1 st))))))
  = map (pair cb2) msgs
  /\ forall to body options ans,
      is_failure ans = true ->
      trace_of
        (Polling.sendMessage config to body options ans
           (state_of (Polling.onError cb2
                        (state_of (Polling.onError cb1 st)))))
      = [EvHttp (sendRequest config to body options);
         EvError cb2 (rejection ans); EvError cb2 (rejection ans)].
Proof.
  intros Hlive Hok. split.
  - rewrite poll_tick_live by exact Hlive.
    rewrite (poll_cycle_success _ _ _ _ Hok).
    cbn [trace_of snd handoffs flat_map app].
    apply handoffs_cycle_events.
  - intros to body options ans Hfail. unfold Polling.sendMessage.
    rewrite (poll_unary_failure _ _ _ _ _ _ Hfail). reflexivity.
Qed.

Lemma poll_last_registration_wins_witness :
  handoffs
    (trace_of
       (Polling.tick sampleConfig 0%nat
          (Answer 200 [sampleMessage "m1" 100])
          (state_of (Polling.onMessage 2%nat
                       (state_of (Polling.onMessage 1%nat startedPolling))))))
  = [(2%nat, sampleMessage "m1" 100)].
Proof.
  exact (proj1 (poll_last_registration_wins sampleConfig startedPolling
                  1%nat 2%nat 0%nat 200 [sampleMessage "m1" 100]
                  eq_refl eq_refl)).
Defined.

(** X2: [stop] ends the polling of the interval it holds and is idempotent.
    When [pollInterval] holds a timer, [stop] clears exactly that timer and
    nulls the field, leaving watermark and callbacks alone; afterwards a
    tick of that timer does nothing (no request, no callback), and a second
    [stop] does nothing at all. *)
Theorem poll_stop_ends_polling (st : Polling.State) id :
  Polling.pollInterval st = Some id ->
  let st' := state_of (Polling.stop st) in
  trace_of (Polling.stop st) = [EvClearInterval id]
  /\ Polling.pollInterval st' = None
  /\ Polling.lastMessageTimestamp st' = Polling.lastMessageTimestamp st
  /\ Polling.messageCallback st' = Polling.messageCallback st
  /\ Polling.errorCallback st' = Polling.errorCallback st
  /\ (forall config ans,
         Polling.tick config id ans st' = (Return tt, st', []))
  /\ Polling.stop st' = (Return tt, st', []).
Proof.
  intros H. cbv zeta. rewrite (poll_stop_some _ _ H).
  cbn [state_of trace_of fst snd]. repeat split.
  intros config ans. unfold Polling.tick. cbn [Polling.timers].
  rewrite existsb_cleared. reflexivity.
Qed.

Lemma poll_stop_ends_polling_witness :
  trace_of (Polling.stop startedPolling) = [EvClearInterval 0%nat]
  /\ Polling.tick sampleConfig 0%nat (Answer 200 [sampleMessage "m1" 100])
                  (state_of (Polling.stop startedPolling))
     = (Return tt, state_of (Polling.stop startedPolling), []).
Proof.
  destruct (poll_stop_ends_polling startedPolling 0%nat eq_refl)
    as (Ht & _ & _ & _ & _ & Htick & _).
  split; [exact Ht | apply Htick].
Defined.

(** X3: a second [start] leaks the first interval.  After two successful
    starts and one [stop], the timer created by the first start is still
    live and keeps polling, while [pollInterval] is null, so that no
    further [stop] can clear it. *)
Theorem poll_second_start_leaks_timer config (st : Polling.State)
        status1 status2 :
  validateStatus status1 = true ->
  validateStatus status2 = true ->
  let st1 := state_of (Polling.start config (Answer status1 tt) st) in
  let st2 := state_of (Polling.start config (Answer status2 tt) st1) in
  let st3 := state_of (Polling.stop st2) in
  Polling.pollInterval st1 = Some (Polling.nextTimer st)
  /\ Polling.pollInterval st2 = Some (S (Polling.nextTimer st))
  /\ trace_of (Polling.stop st2) = [EvClearInterval (S (Polling.nextTimer st))]
  /\ Polling.pollInterval st3 = None
  /\ Polling.stop st3 = (Return tt, st3, [])
  /\ forall ans,
      requests (trace_of (Polling.tick config (Polling.nextTimer st) ans st3))
      = [messagesRequest config (Polling.lastMessageTimestamp st)].
Proof.
  intros H1 H2. cbv zeta.
  rewrite (poll_start_success _ _ _ _ H1). cbn [state_of fst].
  rewrite (poll_start_success _ _ _ _ H2).
  cbn [state_of fst Polling.pollInterval Polling.nextTimer
       Polling.lastMessageTimestamp Polling.messageCallback
       Polling.errorCallback Polling.timers].
  rewrite (poll_stop_some _ (S (Polling.nextTimer st))) by reflexivity.
  cbn [state_of trace_of fst snd Polling.pollInterval Polling.nextTimer
       Polling.lastMessageTimestamp Polling.messageCallback
       Polling.errorCallback Polling.timers].
  split; [reflexivity|]. split; [reflexivity|]. split; [reflexivity|].
  split; [reflexivity|]. split; [reflexivity|].
  intros ans. rewrite poll_tick_live.
  - rewrite poll_cycle_requests. reflexivity.
  - cbn [Polling.timers]. rewrite existsb_kept by lia.
    simpl. rewrite Nat.eqb_refl. apply orb_true_r.
Qed.

Lemma poll_second_start_leaks_timer_witness :
  let st3 := state_of
               (Polling.stop
                  (state_of (Polling.start sampleConfig (Answer 200 tt)
                               startedPolling))) in
  Polling.pollInterval st3 = None
  /\ requests (trace_of (Polling.tick sampleConfig 0%nat NoResponse st3))
     = [messagesRequest sampleConfig 0].
Proof.
  destruct (poll_second_start_leaks_timer sampleConfig
              (state_of (Polling.onError 8%nat
                           (state_of (Polling.onMessage 7%nat
                                        Polling.initial))))
              200 200 eq_refl eq_refl)
    as (_ & _ & _ & Hnull & _ & Htick).
  split; [exact Hnull | exact (Htick NoResponse)].
Defined.

(** X4: a successful [start] sends one registration request, carrying the
    configured private key and agent name, and then starts one interval of
    5000 ms whose handle is kept in [pollInterval]; it asks for no messages
    itself and invokes no callback, and the watermark and the callbacks are
    as before. *)
Theorem poll_start_registers_then_starts_one_interval
        config (st : Polling.State) status :
  validateStatus status = true ->
  let o := Polling.start config (Answer status tt) st in
  result_of o = Return tt
  /\ trace_of o
     = [EvHttp (mkRequest POST "/agents/register" (defaultHeaders config)
                  (RegisterBody (privateKey config) (agentName config)));
        EvSetInterval (Polling.nextTimer st) 5000]
  /\ Polling.pollInterval (state_of o) = Some (Polling.nextTimer st)
  /\ existsb (Nat.eqb (Polling.nextTimer st)) (Polling.timers (state_of o))
     = true
  /\ Polling.lastMessageTimestamp (state_of o)
     = Polling.lastMessageTimestamp st
  /\ Polling.messageCallback (state_of o) = Polling.messageCallback st
  /\ Polling.errorCallback (state_of o) = Polling.errorCallback st.
Proof.
  intros H. cbv zeta. rewrite (poll_start_success _ _ _ _ H).
  cbn [result_of state_of trace_of fst snd Polling.pollInterval
       Polling.timers Polling.lastMessageTimestamp
       Polling.messageCallback Polling.errorCallback].
  repeat split. simpl. rewrite Nat.eqb_refl. reflexivity.
Qed.

Lemma poll_start_registers_then_starts_one_interval_witness :
  trace_of (Polling.start sampleConfig (Answer 201 tt) Polling.initial)
  = [EvHttp (mkRequest POST "/agents/register"
               [("Content-Type", "application/json")]
               (RegisterBody "0xA11CE" (Some "alice")));
     EvSetInterval 0%nat 5000].
Proof.
  exact (proj1 (proj2 (poll_start_registers_then_starts_one_interval
                         sampleConfig Polling.initial 201 eq_refl))).
Defined.

(** X5: a failed poll cycle reports the same failure three times.  With an
    error callback registered, the cycle's only request is followed by
    three invocations of the callback with the one error (by the response
    interceptor, by the [catch] of [getMessages] and by the [catch] of the
    interval handler); nothing is delivered and the watermark is not
    written. *)
Theorem failed_poll_cycle_reports_three_times
        config (st : Polling.State) id cb ans :
  existsb (Nat.eqb id) (Polling.timers st) = true ->
  Polling.errorCallback st = Some cb ->
  is_failure ans = true ->
  trace_of (Polling.tick config id ans st)
  = [EvHttp (messagesRequest config (Polling.lastMessageTimestamp st));
     EvError cb (rejection ans);
     EvError cb (rejection ans);
     EvError cb (rejection ans)].
Proof.
  intros Hlive Hcb Hfail. rewrite poll_tick_live by exact Hlive.
  rewrite (poll_cycle_failure _ _ _ Hfail), Hcb. reflexivity.
Qed.

Lemma failed_poll_cycle_reports_three_times_witness :
  trace_of (Polling.tick sampleConfig 0%nat NoResponse startedPolling)
  = [EvHttp (messagesRequest sampleConfig 0);
     EvError 8%nat (AxiosError None);
     EvError 8%nat (AxiosError None);
     EvError 8%nat (AxiosError None)].
Proof.
  exact (failed_poll_cycle_reports_three_times sampleConfig startedPolling
           0%nat 8%nat NoResponse eq_refl eq_refl eq_refl).
Defined.

(** X6: along any run of the polling client, every message that was
    handed to the message callback is stamped at most the watermark the
    run ends with. *)
Theorem watermark_bounds_every_delivery config ops (st : Polling.State) m :
  In m (deliveries (snd (Polling.run config ops st))) ->
  timestamp m <= Polling.lastMessageTimestamp (fst (Polling.run config ops st)).
Proof.
  revert st. induction ops as [|op ops IH]; intros st; cbn [Polling.run].
  - cbn. tauto.
  - pose proof (poll_exec_deliveries_bound config op st m) as Hop.
    destruct (Polling.exec config op st) as [st1 t1]. cbn [fst snd] in Hop.
    specialize (IH st1).
    pose proof (poll_run_monotone config ops st1) as Hmono.
    destruct (Polling.run config ops st1) as [st2 t2]. cbn [fst snd] in *.
    rewrite deliveries_app. intros H. apply in_app_or in H.
    destruct H as [H|H]; [specialize (Hop H); lia | exact (IH H)].
Qed.

Lemma watermark_bounds_every_delivery_witness :
  timestamp (sampleMessage "m1" 100)
  <= Polling.lastMessageTimestamp
       (fst (Polling.run sampleConfig
               [Polling.OpTick 0%nat
                  (Answer 200 [sampleMessage "m2" 200; sampleMessage "m1" 100]);
                Polling.OpStop]
               startedPolling)).
Proof.
  apply (watermark_bounds_every_delivery sampleConfig
           [Polling.OpTick 0%nat
              (Answer 200 [sampleMessage "m2" 200; sampleMessage "m1" 100]);
            Polling.OpStop]
           startedPolling (sampleMessage "m1" 100)).
  vm_compute. auto.
Defined.

(** X7: the client never filters by the watermark itself.  When two
    consecutive poll cycles are answered with the same list of messages,
    the second cycle hands every message to the callback again, in the
    same order, although all of them are at or below the watermark; the
    second cycle asks since the watermark the first one left, and leaves
    it unchanged. *)
Theorem poll_cycle_redelivers_what_the_server_repeats
        config (st : Polling.State) id cb status msgs :
  existsb (Nat.eqb id) (Polling.timers st) = true ->
  Polling.messageCallback st = Some cb ->
  validateStatus status = true ->
  let st1 := state_of (Polling.tick config id (Answer status msgs) st) in
  let o2 := Polling.tick config id (Answer status msgs) st1 in
  requests (trace_of o2)
  = [messagesRequest config (advance (Polling.lastMessageTimestamp st) msgs)]
  /\ handoffs (trace_of o2) = map (pair cb) msgs
  /\ Forall (fun m => timestamp m <= Polling.lastMessageTimestamp st1) msgs
  /\ Polling.lastMessageTimestamp (state_of o2)
     = Polling.lastMessageTimestamp st1.
Proof.
  intros Hlive Hcb Hok. cbv zeta.
  rewrite (poll_tick_live _ _ _ _ Hlive), (poll_cycle_success _ _ _ _ Hok).
  cbn [state_of fst].
  rewrite poll_tick_live by exact Hlive.
  rewrite (poll_cycle_success _ _ _ _ Hok).
  cbn [state_of trace_of fst snd Polling.set_lastMessageTimestamp
       Polling.lastMessageTimestamp Polling.messageCallback].
  rewrite Hcb. split; [|split; [|split]].
  - cbn [requests flat_map app]. rewrite requests_cycle_events. reflexivity.
  - cbn [handoffs flat_map app]. apply handoffs_cycle_events.
  - apply Forall_forall. intros m Hin.
    apply (deliveries_cycle_bound (Some cb) msgs
             (Polling.lastMessageTimestamp st) m).
    clear - Hin. revert Hin.
    generalize (Polling.lastMessageTimestamp st).
    induction msgs as [|m0 ms IH]; intros w Hin; [destruct Hin|].
    cbn [cycle_events]. cbn [deliveries flat_map app].
    destruct Hin as [->|Hin]; [left; reflexivity|].
    right. apply (IH _ Hin).
  - apply advance_idempotent.
Qed.

Lemma poll_cycle_redelivers_what_the_server_repeats_witness :
  let msgs := [sampleMessage "m1" 100; sampleMessage "m2" 200] in
  let st1 := state_of (Polling.tick sampleConfig 0%nat (Answer 200 msgs)
                                    startedPolling) in
  handoffs (trace_of (Polling.tick sampleConfig 0%nat (Answer 200 msgs) st1))
  = [(7%nat, sampleMessage "m1" 100); (7%nat, sampleMessage "m2" 200)]
  /\ requests (trace_of (Polling.tick sampleConfig 0%nat (Answer 200 msgs)
                           st1))
     = [messagesRequest sampleConfig 200].
Proof.
  intros msgs st1.
  destruct (poll_cycle_redelivers_what_the_server_repeats sampleConfig
              startedPolling 0%nat 7%nat 200 msgs eq_refl eq_refl eq_refl)
    as (Hreq & Hhand & _ & _).
  split; [exact Hhand | exact Hreq].
Defined.

(** X8: no operation of the polling client retries.  Whatever the server
    answers, every public method call and every timer tick issues at most
    one HTTP request, and [onMessage], [onError] and [stop] issue none. *)
Theorem poll_operations_issue_at_most_one_request
        config op (st : Polling.State) :
  (List.length (requests (snd (Polling.exec config op st))) <= 1)%nat
  /\ (forall cb, requests (snd (Polling.exec config (Polling.OpOnMessage cb) st))
                 = [])
  /\ (forall cb, requests (snd (Polling.exec config (Polling.OpOnError cb) st))
                 = [])
  /\ requests (snd (Polling.exec config Polling.OpStop st)) = [].
Proof.
  split; [|split; [|split]].
  - destruct op as [cb|cb|ans| |to body options ans|since ans|agentId ans
                    |ans|id ans]; unfold Polling.exec, Polling.void;
      cbn [fst snd].
    + cbn. lia.
    + cbn. lia.
    + destruct (poll_registerAgent_cases config ans st)
        as [(t & Hr & _ & _)|[E E409]].
      * rewrite (poll_start_registered _ _ _ _ Hr). cbn [trace_of snd].
        rewrite requests_app. cbn [requests flat_map app].
        rewrite app_nil_r. revert Hr.
        answer_cases ans E Hs.
        -- destruct (responseStatusIs 409 (rejection ans)) eqn:E409.
           ++ destruct (conflict_answer _ E409) as [data ->].
              rewrite poll_registerAgent_conflict. intros [= <-].
              cbn [requests flat_map app]. rewrite requests_errors.
              cbn. lia.
           ++ rewrite (poll_registerAgent_failure _ _ _ E E409).
              discriminate.
        -- rewrite (poll_registerAgent_success _ _ _ _ Hs).
           intros [= <-]. cbn. lia.
      * rewrite (poll_start_failure _ _ _ E E409). cbn [trace_of snd].
        cbn [requests flat_map app].
        rewrite requests_app, !requests_errors. cbn. lia.
    + unfold Polling.stop, bind, get.
      destruct (Polling.pollInterval st); cbn; lia.
    + unfold Polling.sendMessage. answer_cases ans E Hs.
      * rewrite (poll_unary_failure _ _ _ _ _ _ E). cbn [trace_of snd].
        cbn [requests flat_map app].
        rewrite requests_app, !requests_errors. cbn. lia.
      * rewrite (poll_unary_success _ _ _ _ _ _ _ Hs). cbn. lia.
    + rewrite poll_getMessages_requests. cbn. lia.
    + unfold Polling.getAgent. answer_cases ans E Hs.
      * rewrite (poll_unary_failure _ _ _ _ _ _ E). cbn [trace_of snd].
        cbn [requests flat_map app].
        rewrite requests_app, !requests_errors. cbn. lia.
      * rewrite (poll_unary_success _ _ _ _ _ _ _ Hs). cbn. lia.
    + unfold Polling.listAgents. answer_cases ans E Hs.
      * rewrite (poll_unary_failure _ _ _ _ _ _ E). cbn [trace_of snd].
        cbn [requests flat_map app].
        rewrite requests_app, !requests_errors. cbn. lia.
      * rewrite (poll_unary_success _ _ _ _ _ _ _ Hs). cbn. lia.
    + unfold Polling.tick. destruct (existsb _ _); [|cbn; lia].
      rewrite poll_cycle_requests. cbn. lia.
  - reflexivity.
  - reflexivity.
  - unfold Polling.exec, Polling.void, Polling.stop, bind, get.
    destruct (Polling.pollInterval st); reflexivity.
Qed.

(** ** Further properties of the push client *)

Section PushMore.

Import Push.

Variable config : OpenPondConfig.
Variable parseURL : string -> string + string.
Variable JSON_parse : string -> Json + string.

Lemma push_api_success {A} m path p status (data : A) (st : State) :
  validateStatus status = true ->
  api config m path p (Answer status data) st
  = (Return data, st, [EvHttp (mkRequest m path (defaultHeaders config) p)]).
Proof.
  intros H. unfold api, bind, emit, settle. rewrite H. reflexivity.
Qed.

Lemma push_unary_success {A} m path p status (data : A) (st : State) :
  validateStatus status = true ->
  try_catch (api config m path p (Answer status data))
            (fun error => reportError error ;; throw error) st
  = (Return data, st, [EvHttp (mkRequest m path (defaultHeaders config) p)]).
Proof.
  intros H. unfold try_catch. rewrite (push_api_success _ _ _ _ _ _ H).
  reflexivity.
Qed.

Lemma push_registerAgent_success status data st :
  validateStatus status = true ->
  registerAgent config (Answer status data) st
  = (Return tt, st, [EvHttp (registerRequest config)]).
Proof.
  intros H. unfold registerAgent, try_catch.
  rewrite (push_api_success _ _ _ _ _ _ H). destruct data. reflexivity.
Qed.

(** [start] once registration has returned with events [t]. *)
Lemma push_start_registered now ans st t u :
  registerAgent config ans st = (Return tt, st, t) ->
  parseURL (String.append (apiUrl config) "/messages/stream") = inl u ->
  start config parseURL now ans st
  = (Return tt,
     mkState (Some (nextStream st)) (messageCallback st) (errorCallback st)
             (nextStream st :: streams st) (S (nextStream st)),
     t ++ [EvOpenStream (nextStream st) u (streamHeaders config now)]).
Proof.
  intros Hr Hu. unfold start, try_catch, bind at 1. rewrite Hr.
  unfold bind at 1. rewrite Hu. reflexivity.
Qed.

Lemma push_start_bad_url now ans st t why :
  registerAgent config ans st = (Return tt, st, t) ->
  parseURL (String.append (apiUrl config) "/messages/stream") = inr why ->
  start config parseURL now ans st
  = (Throw (ErrorObj why), st,
     t ++ error_events (errorCallback st) (ErrorObj why)).
Proof.
  intros Hr Hu. unfold start, try_catch, bind at 1. rewrite Hr.
  unfold bind at 1. rewrite Hu. unfold throw at 1.
  cbn [instanceofError]. unfold bind, throw. rewrite push_reportError.
  cbn. rewrite !app_nil_r. reflexivity.
Qed.

Lemma push_stop_some st id :
  eventSource st = Some id ->
  stop st
  = (Return tt,
     mkState None (messageCallback st) (errorCallback st)
             (filter (fun s => negb (Nat.eqb s id)) (streams st))
             (nextStream st),
     [EvCloseStream id]).
Proof.
  intros H. unfold stop, bind, get. rewrite H. reflexivity.
Qed.

Lemma push_streamMessage_open id data st :
  existsb (Nat.eqb id) (streams st) = true ->
  streamMessage config JSON_parse id data st
  = onStreamMessage config JSON_parse data st.
Proof. intros H. unfold streamMessage. rewrite H. reflexivity. Qed.

End PushMore.

(** X9: a swallowed registration conflict is still reported.  With an
    error callback registered, a registration answered 409 makes [start]
    resolve and go on (the polling client starts its interval, the push
    client opens its stream), yet the error callback is invoked once with
    the 409 error, by the response interceptor. *)
Theorem registration_conflict_is_still_reported :
  (forall config (st : Polling.State) cb data,
      Polling.errorCallback st = Some cb ->
      let o := Polling.start config (Answer 409 data) st in
      result_of o = Return tt
      /\ trace_of o
         = [EvHttp (registerRequest config);
            EvError cb (AxiosError (Some 409));
            EvSetInterval (Polling.nextTimer st) 5000])
  /\ (forall config parseURL now (st : Push.State) cb data u,
         Push.errorCallback st = Some cb ->
         parseURL (String.append (apiUrl config) "/messages/stream") = inl u ->
         let o := Push.start config parseURL now (Answer 409 data) st in
         result_of o = Return tt
         /\ trace_of o
            = [EvHttp (registerRequest config);
               EvError cb (AxiosError (Some 409));
               EvOpenStream (Push.nextStream st) u
                            (Push.streamHeaders config now)]).
Proof.
  split.
  - intros config st cb data Hcb. cbv zeta.
    rewrite (poll_start_registered config _ _ _
               (poll_registerAgent_conflict config data st)).
    rewrite Hcb. split; reflexivity.
  - intros config parseURL now st cb data u Hcb Hu. cbv zeta.
    rewrite (push_start_registered config parseURL now _ _ _ u
               (push_registerAgent_conflict config data st) Hu).
    rewrite Hcb. split; reflexivity.
Qed.

Lemma registration_conflict_is_still_reported_witness :
  trace_of (Polling.start sampleConfig (Answer 409 tt)
              (state_of (Polling.onError 8%nat Polling.initial)))
  = [EvHttp (registerRequest sampleConfig);
     EvError 8%nat (AxiosError (Some 409));
     EvSetInterval 0%nat 5000]
  /\ result_of (Push.start sampleConfig (fun u => inl u) "1700000000000"
                  (Answer 409 tt)
                  (state_of (Push.onError 8%nat Push.initial)))
     = Return tt.
Proof.
  split.
  - exact (proj2 (proj1 registration_conflict_is_still_reported sampleConfig
                    (state_of (Polling.onError 8%nat Polling.initial))
                    8%nat tt eq_refl)).
  - exact (proj1 (proj2 registration_conflict_is_still_reported sampleConfig
                    (fun u => inl u) "1700000000000"
                    (state_of (Push.onError 8%nat Push.initial))
                    8%nat tt _ eq_refl eq_refl)).
Defined.

(** X10: without an error callback, failures are silent except for the
    rejection of the call.  With the error slot empty, a failing unary
    call only rejects; a failing poll cycle leaves no trace but its
    request; and in the push client a malformed event payload and a
    stream error event leave no trace at all. *)
Theorem failures_without_error_callback_are_silent :
  (forall config (st : Polling.State),
      Polling.errorCallback st = None ->
      (forall to body options ans,
          is_failure ans = true ->
          Polling.sendMessage config to body options ans st
          = (Throw (rejection ans), st,
             [EvHttp (sendRequest config to body options)]))
      /\ (forall id ans,
             existsb (Nat.eqb id) (Polling.timers st) = true ->
             is_failure ans = true ->
             Polling.tick config id ans st
             = (Return tt, st,
                [EvHttp (messagesRequest config
                           (Polling.lastMessageTimestamp st))])))
  /\ (forall config JSON_parse (st : Push.State),
         Push.errorCallback st = None ->
         (forall ans,
             is_failure ans = true ->
             Push.listAgents config ans st
             = (Throw (rejection ans), st, [EvHttp (agentsRequest config)]))
         /\ (forall id data why,
                JSON_parse data = inr why ->
                Push.streamMessage config JSON_parse id data st
                = (Return tt, st, []))
         /\ (forall id, Push.streamError id st = (Return tt, st, []))).
Proof.
  split.
  - intros config st Hcb. split.
    + intros to body options ans Hfail. unfold Polling.sendMessage.
      rewrite (poll_unary_failure _ _ _ _ _ _ Hfail), Hcb. reflexivity.
    + intros id ans Hlive Hfail. rewrite poll_tick_live by exact Hlive.
      rewrite (poll_cycle_failure _ _ _ Hfail), Hcb. reflexivity.
  - intros config JSON_parse st Hcb. split; [|split].
    + intros ans Hfail. unfold Push.listAgents.
      rewrite (push_unary_failure _ _ _ _ _ _ Hfail), Hcb. reflexivity.
    + intros id data why Hparse. unfold Push.streamMessage.
      destruct (existsb _ _); [|reflexivity].
      rewrite (push_onStreamMessage_malformed _ _ _ _ _ Hparse), Hcb.
      reflexivity.
    + intros id. unfold Push.streamError, Push.onStreamError.
      rewrite push_reportError, Hcb. destruct (existsb _ _); reflexivity.
Qed.

Lemma failures_without_error_callback_are_silent_witness :
  Polling.tick sampleConfig 0%nat (Answer 500 [])
    (state_of (Polling.start sampleConfig (Answer 200 tt) Polling.initial))
  = (Return tt,
     state_of (Polling.start sampleConfig (Answer 200 tt) Polling.initial),
     [EvHttp (messagesRequest sampleConfig 0)]).
Proof.
  exact (proj2 (proj1 failures_without_error_callback_are_silent sampleConfig
                  (state_of (Polling.start sampleConfig (Answer 200 tt)
                               Polling.initial))
                  eq_refl)
               0%nat (Answer 500 []) eq_refl eq_refl).
Defined.

(** X11: a unary call whose request is answered 2xx returns the body of the
    answer, after exactly one request and without invoking any callback or
    changing the client; [sendMessage] posts the recipient, the content,
    the configured private key and the options, and [getAgent] asks for
    [/agents/] followed by the identifier. *)
Theorem unary_success_returns_the_answer :
  (forall config (st : Polling.State) status,
      validateStatus status = true ->
      (forall to body options data,
          Polling.sendMessage config to body options (Answer status data) st
          = (Return data, st,
             [EvHttp (mkRequest POST "/messages" (defaultHeaders config)
                        (MessageBody to body (privateKey config) options))]))
      /\ (forall since data,
             Polling.getMessages config since (Answer status data) st
             = (Return data, st,
                [EvHttp (messagesRequest config
                           (num_or since (Polling.lastMessageTimestamp st)))]))
      /\ (forall agentId data,
             Polling.getAgent config agentId (Answer status data) st
             = (Return data, st,
                [EvHttp (mkRequest GET (String.append "/agents/" agentId)
                           (defaultHeaders config) NoPayload)]))
      /\ (forall data,
             Polling.listAgents config (Answer status data) st
             = (Return data, st,
                [EvHttp (mkRequest GET "/agents" (defaultHeaders config)
                           NoPayload)])))
  /\ (forall config (st : Push.State) status,
         validateStatus status = true ->
         (forall to body options data,
             Push.sendMessage config to body options (Answer status data) st
             = (Return data, st,
                [EvHttp (mkRequest POST "/messages" (defaultHeaders config)
                           (MessageBody to body (privateKey config)
                                        options))]))
         /\ (forall since data,
                Push.getMessages config since (Answer status data) st
                = (Return data, st,
                   [EvHttp (messagesRequest config (num_or since 0))]))
         /\ (forall agentId data,
                Push.getAgent config agentId (Answer status data) st
                = (Return data, st,
                   [EvHttp (mkRequest GET (String.append "/agents/" agentId)
                              (defaultHeaders config) NoPayload)]))
         /\ (forall data,
                Push.listAgents config (Answer status data) st
                = (Return data, st,
                   [EvHttp (mkRequest GET "/agents" (defaultHeaders config)
                              NoPayload)]))).
Proof.
  split; intros config st status Hok; (split; [|split; [|split]]); intros.
  - apply poll_unary_success. exact Hok.
  - apply poll_getMessages_success. exact Hok.
  - apply poll_unary_success. exact Hok.
  - apply poll_unary_success. exact Hok.
  - apply push_unary_success. exact Hok.
  - apply push_unary_success. exact Hok.
  - apply push_unary_success. exact Hok.
  - apply push_unary_success. exact Hok.
Qed.

Lemma unary_success_returns_the_answer_witness :
  Polling.sendMessage sampleConfig "0xB0B" "hello"
    (Some (mkOptions (Some "c1") None)) (Answer 201 "msg-1") startedPolling
  = (Return "msg-1", startedPolling,
     [EvHttp (mkRequest POST "/messages"
                [("Content-Type", "application/json")]
                (MessageBody "0xB0B" "hello" "0xA11CE"
                             (Some (mkOptions (Some "c1") None))))]).
Proof.
  exact (proj1 (proj1 unary_success_returns_the_answer sampleConfig
                  startedPolling 201 eq_refl)
               "0xB0B" "hello" (Some (mkOptions (Some "c1") None)) "msg-1").
Defined.

(** X12: a successful [start] of the push client sends one registration
    request and then opens exactly one event stream, at the configured
    base URL followed by [/messages/stream], whose handle is kept in
    [eventSource]; the callbacks are as before and none is invoked. *)
Theorem push_start_registers_then_opens_one_stream
        config parseURL now (st : Push.State) status u :
  validateStatus status = true ->
  parseURL (String.append (apiUrl config) "/messages/stream") = inl u ->
  let o := Push.start config parseURL now (Answer status tt) st in
  result_of o = Return tt
  /\ trace_of o
     = [EvHttp (mkRequest POST "/agents/register" (defaultHeaders config)
                  (RegisterBody (privateKey config) (agentName config)));
        EvOpenStream (Push.nextStream st) u (Push.streamHeaders config now)]
  /\ Push.eventSource (state_of o) = Some (Push.nextStream st)
  /\ existsb (Nat.eqb (Push.nextStream st)) (Push.streams (state_of o)) = true
  /\ Push.messageCallback (state_of o) = Push.messageCallback st
  /\ Push.errorCallback (state_of o) = Push.errorCallback st.
Proof.
  intros Hok Hu. cbv zeta.
  rewrite (push_start_registered config parseURL now _ _ _ u
             (push_registerAgent_success config _ tt st Hok) Hu).
  cbn [result_of state_of trace_of fst snd Push.eventSource Push.streams
       Push.messageCallback Push.errorCallback].
  repeat split. simpl. rewrite Nat.eqb_refl. reflexivity.
Qed.

Lemma push_start_registers_then_opens_one_stream_witness :
  trace_of (Push.start sampleConfig (fun u => inl u) "1700000000000"
              (Answer 200 tt) Push.initial)
  = [EvHttp (registerRequest sampleConfig);
     EvOpenStream 0%nat "https://api.example/messages/stream"
       [("Accept", "text/event-stream"); ("X-Agent-Id", "0xA11CE");
        ("X-Timestamp", "1700000000000")]].
Proof.
  exact (proj1 (proj2 (push_start_registers_then_opens_one_stream sampleConfig
                         (fun u => inl u) "1700000000000" Push.initial 200
                         "https://api.example/messages/stream"
                         eq_refl eq_refl))).
Defined.

Lemma lookup_header_app name hs1 hs2 :
  lookup_header name (hs1 ++ hs2)
  = match lookup_header name hs1 with
    | Some v => Some v
    | None => lookup_header name hs2
    end.
Proof.
  induction hs1 as [|[k v] hs1 IH]; simpl; [reflexivity|].
  destruct (String.eqb k name); [reflexivity | exact IH].
Qed.

(** X13: the headers of the stream subscription.  [Accept] is always
    [text/event-stream]; [X-API-Key] is sent exactly when an API key is
    configured and non-empty, and then carries it; [X-Agent-Id] and
    [X-Timestamp] are sent exactly when the private key is non-empty, and
    then carry the private key itself and the current time; no
    [X-Signature] header is ever sent. *)
Theorem push_stream_headers config now :
  let hs := Push.streamHeaders config now in
  lookup_header "Accept" hs = Some "text/event-stream"
  /\ lookup_header "X-API-Key" hs
     = match apiKey config with
       | Some k => if String.eqb k "" then None else Some k
       | None => None
       end
  /\ lookup_header "X-Agent-Id" hs
     = (if String.eqb (privateKey config) "" then None
        else Some (privateKey config))
  /\ lookup_header "X-Timestamp" hs
     = (if String.eqb (privateKey config) "" then None else Some now)
  /\ lookup_header "X-Signature" hs = None.
Proof.
  cbv zeta. unfold Push.streamHeaders, truthy.
  repeat split; rewrite !lookup_header_app;
    destruct (apiKey config) as [k|]; try destruct (String.eqb k "");
    destruct (String.eqb (privateKey config) ""); reflexivity.
Qed.

(** X14: an invalid stream URL fails [start] after registration.  When the
    registration is answered 2xx but the URL built from the base URL does
    not parse, [start] rejects with the [TypeError], which is reported to
    the error callback exactly once (there was no failing request for the
    interceptor to report); the registration request has been sent, no
    stream is opened and the client is left as it was. *)
Theorem push_start_with_invalid_url
        config parseURL now (st : Push.State) status why :
  validateStatus status = true ->
  parseURL (String.append (apiUrl config) "/messages/stream") = inr why ->
  Push.start config parseURL now (Answer status tt) st
  = (Throw (ErrorObj why), st,
     EvHttp (registerRequest config)
       :: error_events (Push.errorCallback st) (ErrorObj why)).
Proof.
  intros Hok Hu.
  rewrite (push_start_bad_url config parseURL now _ _ _ why
             (push_registerAgent_success config _ tt st Hok) Hu).
  reflexivity.
Qed.

Lemma push_start_with_invalid_url_witness :
  Push.start (mkConfig "not a url" "0xA11CE" None None)
             (fun _ => inr "Invalid URL") "1700000000000" (Answer 200 tt)
             (state_of (Push.onError 8%nat Push.initial))
  = (Throw (ErrorObj "Invalid URL"),
     state_of (Push.onError 8%nat Push.initial),
     [EvHttp (registerRequest (mkConfig "not a url" "0xA11CE" None None));
      EvError 8%nat (ErrorObj "Invalid URL")]).
Proof.
  exact (push_start_with_invalid_url
           (mkConfig "not a url" "0xA11CE" None None)
           (fun _ => inr "Invalid URL") "1700000000000"
           (state_of (Push.onError 8%nat Push.initial)) 200 "Invalid URL"
           eq_refl eq_refl).
Defined.



(** X16: [stop] of the push client closes the stream it holds and is
    idempotent.  When [eventSource] holds a stream, [stop] closes exactly
    that stream and nulls the field, leaving the callbacks registered;
    afterwards no event of that stream reaches a callback, and a second
    [stop] does nothing. *)
Theorem push_stop_closes_the_stream config JSON_parse (st : Push.State) id :
  Push.eventSource st = Some id ->
  let st' := state_of (Push.stop st) in
  trace_of (Push.stop st) = [EvCloseStream id]
  /\ Push.eventSource st' = None
  /\ Push.messageCallback st' = Push.messageCallback st
  /\ Push.errorCallback st' = Push.errorCallback st
  /\ (forall data,
         Push.streamMessage config JSON_parse id data st'
         = (Return tt, st', []))
  /\ Push.streamError id st' = (Return tt, st', [])
  /\ Push.stop st' = (Return tt, st', []).
Proof.
  intros H. cbv zeta. rewrite (push_stop_some _ _ H).
  cbn [state_of trace_of fst snd]. repeat split.
  - intros data. unfold Push.streamMessage. cbn [Push.streams].
    rewrite existsb_cleared. reflexivity.
  - unfold Push.streamError. cbn [Push.streams].
    rewrite existsb_cleared. reflexivity.
Qed.

Lemma push_stop_closes_the_stream_witness :
  trace_of (Push.stop startedPush) = [EvCloseStream 0%nat]
  /\ Push.streamMessage sampleConfig
       (fun _ => inl (JMessage (sampleMessage "m1" 100))) 0%nat "{}"
       (state_of (Push.stop startedPush))
     = (Return tt, state_of (Push.stop startedPush), []).
Proof.
  destruct (push_stop_closes_the_stream sampleConfig
              (fun _ => inl (JMessage (sampleMessage "m1" 100)))
              startedPush 0%nat eq_refl)
    as (Ht & _ & _ & _ & Hmsg & _).
  split; [exact Ht | exact (Hmsg "{}")].
Defined.

(** X17: a stream error is only reported.  On an error event of an open
    stream the error callback receives [EventSource connection error] and
    nothing else happens: the stream is not closed, [eventSource] is kept,
    and the next message event for the configured recipient is still
    delivered. *)
Theorem push_stream_error_is_only_reported
        config JSON_parse (st : Push.State) id :
  existsb (Nat.eqb id) (Push.streams st) = true ->
  Push.streamError id st
  = (Return tt, st,
     error_events (Push.errorCallback st)
                  (ErrorObj "EventSource connection error"))
  /\ forall data m cb,
      JSON_parse data = inl (JMessage m) ->
      Push.messageCallback st = Some cb ->
      toAgentId m = privateKey config ->
      privateKey config <> "" ->
      trace_of (Push.streamMessage config JSON_parse id data
                  (state_of (Push.streamError id st)))
      = [EvMessage cb m].
Proof.
  intros Hopen.
  assert (Herr : Push.streamError id st
                 = (Return tt, st,
                    error_events (Push.errorCallback st)
                                 (ErrorObj "EventSource connection error"))).
  { unfold Push.streamError, Push.onStreamError. rewrite Hopen.
    apply push_reportError. }
  split; [exact Herr|].
  intros data m cb Hparse Hcb Hto Hid. rewrite Herr. cbn [state_of fst].
  rewrite (push_streamMessage_open _ _ _ _ _ Hopen).
  rewrite (push_onStreamMessage_parsed _ _ _ _ _ Hparse), Hcb.
  cbn [trace_of snd]. apply String.eqb_eq in Hto. rewrite Hto.
  apply String.eqb_neq in Hid. unfold truthy. rewrite Hid. reflexivity.
Qed.

Lemma push_stream_error_is_only_reported_witness :
  Push.streamError 0%nat startedPush
  = (Return tt, startedPush,
     [EvError 8%nat (ErrorObj "EventSource connection error")])
  /\ trace_of (Push.streamMessage sampleConfig
                 (fun _ => inl (JMessage (sampleMessage "m1" 100))) 0%nat "{}"
                 (state_of (Push.streamError 0%nat startedPush)))
     = [EvMessage 7%nat (sampleMessage "m1" 100)].
Proof.
  destruct (push_stream_error_is_only_reported sampleConfig
              (fun _ => inl (JMessage (sampleMessage "m1" 100)))
              startedPush 0%nat eq_refl) as (Herr & Hnext).
  split; [exact Herr|].
  apply (Hnext "{}" (sampleMessage "m1" 100) 7%nat eq_refl eq_refl eq_refl).
  discriminate.
Defined.

(** X18: [getMessages] of the push client keeps no cursor.  It sends the
    [since] it is given, and 0 when [since] is omitted, whatever was
    received before; so, unlike in the polling client, [getMessages(0)]
    always asks for the history from 0. *)
Theorem push_getMessages_sends_since_or_zero
        config (st : Push.State) since ans :
  requests (trace_of (Push.getMessages config since ans st))
  = [messagesRequest config (since_or_zero since)].
Proof.
  assert (Hs : num_or since 0 = since_or_zero since).
  { destruct since as [s|]; [|reflexivity]. cbn.
    destruct (s =? 0) eqn:E; [|reflexivity].
    apply Z.eqb_eq in E. auto. }
  unfold Push.getMessages. answer_cases ans E Hok.
  - rewrite (push_unary_failure _ _ _ _ _ _ E). cbn [trace_of snd].
    cbn [requests flat_map app].
    rewrite requests_app, !requests_errors, Hs. reflexivity.
  - rewrite (push_unary_success _ _ _ _ _ _ _ Hok), Hs. reflexivity.
Qed.

(** X19: a second [start] of the push client leaks the first stream.
    After two successful starts and one [stop], the stream opened by the
    first start is still open and still delivers to the message callback,
    while [eventSource] is null, so that no further [stop] can close it. *)
Theorem push_second_start_leaks_stream
        config parseURL JSON_parse now1 now2 (st : Push.State)
        status1 status2 u :
  validateStatus status1 = true ->
  validateStatus status2 = true ->
  parseURL (String.append (apiUrl config) "/messages/stream") = inl u ->
  let st1 := state_of (Push.start config parseURL now1 (Answer status1 tt) st) in
  let st2 := state_of (Push.start config parseURL now2 (Answer status2 tt) st1) in
  let st3 := state_of (Push.stop st2) in
  trace_of (Push.stop st2) = [EvCloseStream (S (Push.nextStream st))]
  /\ Push.eventSource st3 = None
  /\ Push.stop st3 = (Return tt, st3, [])
  /\ forall data,
      Push.streamMessage config JSON_parse (Push.nextStream st) data st3
      = Push.onStreamMessage config JSON_parse data st3.
Proof.
  intros H1 H2 Hu. cbv zeta.
  rewrite (push_start_registered config parseURL now1 _ _ _ u
             (push_registerAgent_success config _ tt st H1) Hu).
  cbn [state_of fst].
  rewrite (push_start_registered config parseURL now2 _ _ _ u
             (push_registerAgent_success config _ tt _ H2) Hu).
  cbn [state_of fst Push.eventSource Push.nextStream Push.messageCallback
       Push.errorCallback Push.streams].
  rewrite (push_stop_some _ (S (Push.nextStream st))) by reflexivity.
  cbn [state_of trace_of fst snd Push.eventSource Push.nextStream
       Push.messageCallback Push.errorCallback Push.streams].
  split; [reflexivity|]. split; [reflexivity|]. split; [reflexivity|].
  intros data. apply push_streamMessage_open. cbn [Push.streams].
  rewrite existsb_kept by lia. simpl. rewrite Nat.eqb_refl.
  apply orb_true_r.
Qed.

Lemma push_second_start_leaks_stream_witness :
  let parse := fun _ : string =>
                 @inl Json string (JMessage (sampleMessage "m1" 100)) in
  let st3 := state_of
               (Push.stop
                  (state_of (Push.start sampleConfig (fun u => inl u)
                               "1700000000001" (Answer 200 tt) startedPush)))
  in
  Push.eventSource st3 = None
  /\ trace_of (Push.streamMessage sampleConfig parse 0%nat "{}" st3)
     = [EvMessage 7%nat (sampleMessage "m1" 100)].
Proof.
  intros parse st3.
  destruct (push_second_start_leaks_stream sampleConfig (fun u => inl u)
              parse "1700000000000" "1700000000001"
              (state_of (Push.onError 8%nat
                           (state_of (Push.onMessage 7%nat Push.initial))))
              200 200 "https://api.example/messages/stream"
              eq_refl eq_refl eq_refl)
    as (_ & Hnull & _ & Hmsg).
  split; [exact Hnull|].
  change (trace_of (Push.streamMessage sampleConfig parse 0%nat "{}" st3))
    with (trace_of (Push.streamMessage sampleConfig parse
                      (Push.nextStream
                         (state_of (Push.onError 8%nat
                            (state_of (Push.onMessage 7%nat Push.initial)))))
                      "{}" st3)).
  unfold st3, startedPush. rewrite (Hmsg "{}"). reflexivity.
Defined.

(** ** The streaming client *)

Section P2PFacts.

Variable options : P2P.P2PClientOptions.
Variable resolvePackagePath : string -> string.
Variable parseInt : option string -> option Z.
Variable dirname : string -> string.
Variable nullCallMessage : string.
Variable host : P2P.Host.

Local Abbreviation binary := (P2P.this_binaryPath options resolvePackagePath).
Local Abbreviation startNode :=
  (P2P.startNode options resolvePackagePath parseInt dirname host).
Local Abbreviation connect :=
  (P2P.connect options resolvePackagePath parseInt dirname host).
Local Abbreviation attemptOnce := (P2P.attemptOnce options parseInt host).
Local Abbreviation retryLoop := (P2P.retryLoop options parseInt host).

Lemma p2p_cleanup st :
  P2P.cleanup st
  = (inl tt,
     P2P.mkState None None None false None (P2P.nextHandle st)
       (P2P.log st ++ match P2P.nodeProcess st with
                      | Some pid => [P2P.FxKill pid]
                      | None => []
                      end)).
Proof.
  destruct st as [c s h b [pid|] n l]; cbn; rewrite ?app_nil_r; reflexivity.
Qed.

Lemma p2p_startNode_ok nodeOptions early st :
  truthy binary = true ->
  P2P.access host (P2P.findNodeExecutable host) = None ->
  P2P.firstRejection early = None ->
  startNode nodeOptions early st
  = (inl tt,
     P2P.mkState (P2P.client st) (P2P.stream st) (P2P.messageHandler st)
       (P2P.connected st) (Some (P2P.nextHandle st)) (S (P2P.nextHandle st))
       (P2P.log st
          ++ [P2P.FxSpawn (P2P.nextHandle st) (P2P.findNodeExecutable host)
                (binary
                   :: ["-p"; P2P.showNumber (P2P.grpcPort options parseInt);
                       "-n"; P2P.agentName nodeOptions;
                       "-k"; P2P.privateKeyEnv host])
                (dirname binary)
                (P2P.str_or (P2P.envNODE_PATH host) (dirname binary));
              P2P.FxSleep 1000])).
Proof.
  intros Hbin Hacc Hearly. unfold P2P.startNode.
  rewrite Hbin, Hacc. cbn [negb].
  unfold P2P.bind, P2P.fresh, P2P.effect, P2P.modify. cbn.
  rewrite Hearly. cbn. rewrite <- app_assoc. reflexivity.
Qed.

Lemma p2p_attempt_established nodeOptions st :
  attemptOnce nodeOptions P2P.Established st
  = (inl tt,
     P2P.mkState (Some (P2P.nextHandle st)) (Some (S (P2P.nextHandle st)))
       (P2P.messageHandler st) true (P2P.nodeProcess st)
       (S (S (P2P.nextHandle st)))
       (P2P.log st
          ++ [P2P.FxNewClient (P2P.nextHandle st) (P2P.address options);
              P2P.FxConnect (P2P.nextHandle st) (S (P2P.nextHandle st))
                (P2P.grpcPort options parseInt) (P2P.agentName nodeOptions)
                (P2P.privateKeyEnv host)])).
Proof.
  destruct st as [c s h b np n l]. cbn. rewrite <- app_assoc. reflexivity.
Qed.

Lemma p2p_attempt_client_throws nodeOptions why st :
  attemptOnce nodeOptions (P2P.ClientThrows why) st = (inr why, st).
Proof. reflexivity. Qed.

Lemma p2p_attempt_connect_throws nodeOptions why st :
  attemptOnce nodeOptions (P2P.ConnectThrows why) st
  = (inr why,
     P2P.mkState (Some (P2P.nextHandle st)) (P2P.stream st)
       (P2P.messageHandler st) (P2P.connected st) (P2P.nodeProcess st)
       (S (P2P.nextHandle st))
       (P2P.log st
          ++ [P2P.FxNewClient (P2P.nextHandle st) (P2P.address options)])).
Proof. destruct st as [c s h b np n l]. reflexivity. Qed.

(** A failing attempt: it throws its message, may have replaced the client,
    and touches nothing else but the log. *)
Lemma p2p_attempt_failure nodeOptions a why st :
  failure_of a = Some why ->
  exists c n new,
    attemptOnce nodeOptions a st
    = (inr why,
       P2P.mkState c (P2P.stream st) (P2P.messageHandler st)
                   (P2P.connected st) (P2P.nodeProcess st) n
                   (P2P.log st ++ new))
    /\ (c = P2P.client st \/ c <> None)
    /\ sleeps new = [] /\ kills new = []
    /\ (List.length (clients_built new) <= 1)%nat
    /\ handled new = [] /\ rpc_calls new = [].
Proof.
  destruct a as [|m|m]; cbn [failure_of]; intros [= <-].
  - exists (P2P.client st), (P2P.nextHandle st), [].
    rewrite p2p_attempt_client_throws. destruct st; cbn.
    rewrite app_nil_r. repeat split; auto.
  - exists (Some (P2P.nextHandle st)), (S (P2P.nextHandle st)),
      [P2P.FxNewClient (P2P.nextHandle st) (P2P.address options)].
    rewrite p2p_attempt_connect_throws. cbn.
    repeat split; auto. right. discriminate.
Qed.

(** X20: the unary calls need a connected session.  While [connected] is
    false, [sendMessage] and [listAgents] reject with
    [Not connected to P2P network] without calling the node and without
    changing anything; this is the case after a stream error and after
    [disconnect], whatever the session was. *)
Theorem p2p_calls_require_connection (st : P2P.State) :
  P2P.connected st = false ->
  (forall to body rpcError,
      P2P.sendMessage nullCallMessage to body rpcError st
      = (inr "Not connected to P2P network", st))
  /\ (forall answer,
         P2P.listAgents answer st = (inr "Not connected to P2P network", st))
  /\ (forall st0, P2P.connected (snd (P2P.onStreamError st0)) = false)
  /\ (forall st0, P2P.connected (snd (P2P.disconnect st0)) = false).
Proof.
  intros H. split; [|split; [|split]].
  - intros to body rpcError. unfold P2P.sendMessage, P2P.bind, P2P.get.
    rewrite H. reflexivity.
  - intros answer. unfold P2P.listAgents, P2P.bind, P2P.get.
    rewrite H. reflexivity.
  - intros st0. reflexivity.
  - intros st0. destruct st0 as [c [s|] h b [pid|] n l]; reflexivity.
Qed.

(** X21: [sendMessage] wraps a failure of the call, [listAgents] does not.
    In a connected session each of them makes exactly one call on the
    client; when the call fails with a message, [sendMessage] rejects with
    [Failed to send message: ] followed by it, whereas [listAgents] rejects
    with the message as it is; when it succeeds, [listAgents] returns the
    roster as answered. *)
Theorem p2p_send_wraps_list_does_not (st : P2P.State) c :
  P2P.connected st = true ->
  P2P.client st = Some c ->
  let logged fx :=
    P2P.mkState (P2P.client st) (P2P.stream st) (P2P.messageHandler st)
      (P2P.connected st) (P2P.nodeProcess st) (P2P.nextHandle st)
      (P2P.log st ++ [fx]) in
  (forall to body why,
      P2P.sendMessage nullCallMessage to body (Some why) st
      = (inr (String.append "Failed to send message: " why),
         logged (P2P.FxSendMessage c to body)))
  /\ (forall to body,
         P2P.sendMessage nullCallMessage to body None st
         = (inl tt, logged (P2P.FxSendMessage c to body)))
  /\ (forall why,
         P2P.listAgents (inr why) st = (inr why, logged (P2P.FxListAgents c)))
  /\ (forall roster,
         P2P.listAgents (inl roster) st
         = (inl roster, logged (P2P.FxListAgents c))).
Proof.
  intros Hconn Hc. destruct st as [c0 s h b np n l].
  cbn in Hconn, Hc. subst b c0. cbv zeta. repeat split.
Qed.

(** X22: [disconnect] resets the session and is idempotent.  It cancels
    the stream if there is one, kills the node process if there is one
    (twice: once itself and once in the clean-up), and leaves every session
    field cleared, the message handler included; a second [disconnect]
    does nothing, and events of the stream are no longer handed on. *)
Theorem p2p_disconnect_resets_the_session (st : P2P.State) :
  let r := P2P.disconnect st in
  fst r = inl tt
  /\ p2p_reset (snd r)
  /\ P2P.log (snd r)
     = P2P.log st
         ++ match P2P.stream st with
            | Some s => [P2P.FxCancel s]
            | None => []
            end
         ++ match P2P.nodeProcess st with
            | Some pid => [P2P.FxKill pid; P2P.FxKill pid]
            | None => []
            end
  /\ P2P.disconnect (snd r) = (inl tt, snd r)
  /\ forall event, P2P.onData event (snd r) = (inl tt, snd r).
Proof.
  destruct st as [c [s|] h b [pid|] n l]; cbn;
    rewrite <- ?app_assoc, ?app_nil_r; cbn;
    (repeat split; try reflexivity);
    intros event; destruct event; reflexivity.
Qed.


Lemma sleeps_app l1 l2 : sleeps (l1 ++ l2) = sleeps l1 ++ sleeps l2.
Proof. apply flat_map_app. Qed.

Lemma kills_app l1 l2 : kills (l1 ++ l2) = kills l1 ++ kills l2.
Proof. apply flat_map_app. Qed.

Lemma clients_built_app l1 l2 :
  clients_built (l1 ++ l2) = clients_built l1 ++ clients_built l2.
Proof. apply flat_map_app. Qed.

(** The part of [connect] before the retry loop, when the node starts and
    the protocol descriptor loads. *)
Lemma p2p_connect_prelude nodeOptions early attempt st :
  truthy binary = true ->
  P2P.access host (P2P.findNodeExecutable host) = None ->
  P2P.firstRejection early = None ->
  connect nodeOptions early None attempt st
  = P2P.try_catch
      (retryLoop nodeOptions attempt 3 0)
      (fun error =>
         P2P.bind P2P.cleanup
           (fun _ => P2P.throw (String.append "Failed to connect: " error)))
      (P2P.mkState (P2P.client st) (P2P.stream st) (P2P.messageHandler st)
         (P2P.connected st) (Some (P2P.nextHandle st))
         (S (P2P.nextHandle st))
         (P2P.log st
            ++ [P2P.FxSpawn (P2P.nextHandle st) (P2P.findNodeExecutable host)
                  (binary
                     :: ["-p"; P2P.showNumber (P2P.grpcPort options parseInt);
                         "-n"; P2P.agentName nodeOptions;
                         "-k"; P2P.privateKeyEnv host])
                  (dirname binary)
                  (P2P.str_or (P2P.envNODE_PATH host) (dirname binary));
                P2P.FxSleep 1000; P2P.FxSleep 2000;
                P2P.FxLoadProto
                  (P2P.this_protoPath options resolvePackagePath)])).
Proof.
  intros Hbin Hacc Hearly. unfold P2P.connect, P2P.try_catch.
  unfold P2P.bind at 1. rewrite (p2p_startNode_ok _ _ _ Hbin Hacc Hearly).
  unfold P2P.bind at 1. unfold P2P.effect at 1.
  unfold P2P.bind at 1. unfold P2P.effect at 1.
  unfold P2P.bind at 1. unfold P2P.ret at 1.
  cbn [P2P.client P2P.stream P2P.messageHandler P2P.connected
       P2P.nodeProcess P2P.nextHandle P2P.log].
  rewrite <- !app_assoc. reflexivity.
Qed.

Lemma p2p_retry_exhausted nodeOptions attempt k m0 m1 m2 st :
  failure_of (attempt k) = Some m0 ->
  failure_of (attempt (S k)) = Some m1 ->
  failure_of (attempt (S (S k))) = Some m2 ->
  exists c n new,
    retryLoop nodeOptions attempt 3 k st
    = (inr m2,
       P2P.mkState c (P2P.stream st) (P2P.messageHandler st)
                   (P2P.connected st) (P2P.nodeProcess st) n
                   (P2P.log st ++ new))
    /\ sleeps new = [1000; 1000] /\ kills new = []
    /\ (List.length (clients_built new) <= 3)%nat.
Proof.
  intros H0 H1 H2. cbn [P2P.retryLoop Nat.eqb]. unfold P2P.try_catch at 1.
  destruct (p2p_attempt_failure nodeOptions _ _ st H0)
    as (c0 & n0 & new0 & -> & _ & Hs0 & Hk0 & Hc0 & _).
  unfold P2P.bind at 1, P2P.effect at 1.
  cbn [P2P.client P2P.stream P2P.messageHandler P2P.connected
       P2P.nodeProcess P2P.nextHandle P2P.log].
  unfold P2P.try_catch at 1.
  match goal with
  | |- context [attemptOnce nodeOptions (attempt (S k)) ?s] =>
      destruct (p2p_attempt_failure nodeOptions _ _ s H1)
        as (c1 & n1 & new1 & -> & _ & Hs1 & Hk1 & Hc1 & _)
  end.
  unfold P2P.bind at 1, P2P.effect at 1.
  cbn [P2P.client P2P.stream P2P.messageHandler P2P.connected
       P2P.nodeProcess P2P.nextHandle P2P.log].
  unfold P2P.try_catch at 1.
  match goal with
  | |- context [attemptOnce nodeOptions (attempt (S (S k))) ?s] =>
      destruct (p2p_attempt_failure nodeOptions _ _ s H2)
        as (c2 & n2 & new2 & -> & _ & Hs2 & Hk2 & Hc2 & _)
  end.
  unfold P2P.throw.
  cbn [P2P.client P2P.stream P2P.messageHandler P2P.connected
       P2P.nodeProcess P2P.nextHandle P2P.log].
  exists c2, n2,
    (new0 ++ [P2P.FxSleep 1000] ++ new1 ++ [P2P.FxSleep 1000] ++ new2).
  split; [|split; [|split]].
  - rewrite <- !app_assoc. reflexivity.
  - rewrite !sleeps_app, Hs0, Hs1, Hs2. reflexivity.
  - rewrite !kills_app, Hk0, Hk1, Hk2. reflexivity.
  - rewrite !clients_built_app, !length_app. cbn. lia.
Qed.

(** X24: [connect] gives up after three attempts.  When the node starts
    and the descriptor loads but the construction of the client or its
    connect call fails three times, [connect] pauses 1000 ms after the
    first and after the second failure and not after the third, then
    resets the session (killing the process it spawned and dropping a
    message handler registered before) and rejects with
    [Failed to connect: ] followed by the message of the third failure. *)
Theorem p2p_connect_gives_up_after_three_attempts
        nodeOptions early attempt m0 m1 m2 (st : P2P.State) :
  truthy binary = true ->
  P2P.access host (P2P.findNodeExecutable host) = None ->
  P2P.firstRejection early = None ->
  failure_of (attempt 0%nat) = Some m0 ->
  failure_of (attempt 1%nat) = Some m1 ->
  failure_of (attempt 2%nat) = Some m2 ->
  let r := connect nodeOptions early None attempt st in
  fst r = inr (String.append "Failed to connect: " m2)
  /\ p2p_reset (snd r)
  /\ exists new,
      P2P.log (snd r) = P2P.log st ++ new
      /\ sleeps new = [1000; 2000; 1000; 1000]
      /\ kills new = [P2P.nextHandle st]
      /\ (List.length (clients_built new) <= 3)%nat.
Proof.
  intros Hbin Hacc Hearly H0 H1 H2. cbv zeta.
  rewrite (p2p_connect_prelude _ _ _ _ Hbin Hacc Hearly).
  unfold P2P.try_catch.
  match goal with
  | |- context [retryLoop nodeOptions attempt 3 0 ?s] =>
      destruct (p2p_retry_exhausted nodeOptions attempt 0 m0 m1 m2 s H0 H1 H2)
        as (c & n & new & -> & Hs & Hk & Hc)
  end.
  unfold P2P.bind. rewrite p2p_cleanup. unfold P2P.throw.
  cbn [fst snd P2P.client P2P.stream P2P.messageHandler P2P.connected
       P2P.nodeProcess P2P.nextHandle P2P.log].
  split; [reflexivity|]. split; [repeat split|].
  eexists. split; [rewrite <- !app_assoc; reflexivity|].
  cbn [app]. split; [|split].
  - cbn [sleeps flat_map app]. fold (sleeps (new ++ [P2P.FxKill (P2P.nextHandle st)])).
    rewrite sleeps_app, Hs. reflexivity.
  - cbn [kills flat_map app]. fold (kills (new ++ [P2P.FxKill (P2P.nextHandle st)])).
    rewrite kills_app, Hk. reflexivity.
  - cbn [clients_built flat_map app].
    fold (clients_built (new ++ [P2P.FxKill (P2P.nextHandle st)])).
    rewrite clients_built_app, length_app. cbn. lia.
Qed.

Lemma failure_of_cases a :
  a = P2P.Established \/ exists why, failure_of a = Some why.
Proof.
  destruct a; [left; reflexivity | right; eexists; reflexivity
              | right; eexists; reflexivity].
Qed.

Lemma p2p_retry_succeeds nodeOptions attempt j :
  forall retries k st,
    (j < retries)%nat ->
    (forall i, (i < j)%nat -> attempt (k + i)%nat <> P2P.Established) ->
    attempt (k + j)%nat = P2P.Established ->
    exists c s n new,
      retryLoop nodeOptions attempt retries k st
      = (inl tt,
         P2P.mkState (Some c) (Some s) (P2P.messageHandler st) true
                     (P2P.nodeProcess st) n (P2P.log st ++ new))
      /\ sleeps new = repeat 1000 j /\ kills new = [].
Proof.
  induction j as [|j IH]; intros retries k st Hlt Hfail Hest.
  - destruct retries as [|r]; [lia|].
    rewrite Nat.add_0_r in Hest. cbn [P2P.retryLoop].
    unfold P2P.try_catch. rewrite Hest, p2p_attempt_established.
    do 4 eexists. split; [reflexivity|]. split; reflexivity.
  - destruct retries as [|r]; [lia|].
    destruct (failure_of_cases (attempt k)) as [Hk|[why Hk]].
    + exfalso. apply (Hfail 0%nat); [lia|]. rewrite Nat.add_0_r. exact Hk.
    + cbn [P2P.retryLoop]. unfold P2P.try_catch.
      destruct (p2p_attempt_failure nodeOptions _ _ st Hk)
        as (c0 & n0 & new0 & -> & _ & Hs0 & Hk0 & _).
      assert (Hr : Nat.eqb r 0 = false) by (apply Nat.eqb_neq; lia).
      rewrite Hr. unfold P2P.bind at 1, P2P.effect at 1.
      cbn [P2P.client P2P.stream P2P.messageHandler P2P.connected
           P2P.nodeProcess P2P.nextHandle P2P.log].
      match goal with
      | |- context [retryLoop nodeOptions attempt r (S k) ?s'] =>
          destruct (IH r (S k) s') as (c & s & n & new & -> & Hs & Hkl)
      end.
      * lia.
      * intros i Hi. replace (S k + i)%nat with (k + S i)%nat by lia.
        apply Hfail. lia.
      * replace (S k + j)%nat with (k + S j)%nat by lia. exact Hest.
      * cbn [P2P.client P2P.stream P2P.messageHandler P2P.connected
             P2P.nodeProcess P2P.nextHandle P2P.log].
        exists c, s, n, (new0 ++ [P2P.FxSleep 1000] ++ new).
        split; [rewrite <- !app_assoc; reflexivity|]. split.
        -- rewrite !sleeps_app, Hs0, Hs. reflexivity.
        -- rewrite !kills_app, Hk0, Hkl. reflexivity.
Qed.

(** X25: [connect] stops retrying at the first attempt that succeeds.
    When the node starts, the descriptor loads and attempt number [k]
    (counted from 0, below 3) is the first to succeed, [connect] resolves
    with the session connected, a client and a stream in place, the
    spawned process kept and the message handler as it was; it has paused
    1000 ms once per failed attempt and killed nothing. *)
Theorem p2p_connect_stops_at_the_first_success
        nodeOptions early attempt k (st : P2P.State) :
  truthy binary = true ->
  P2P.access host (P2P.findNodeExecutable host) = None ->
  P2P.firstRejection early = None ->
  (k < 3)%nat ->
  (forall i, (i < k)%nat -> attempt i <> P2P.Established) ->
  attempt k = P2P.Established ->
  let r := connect nodeOptions early None attempt st in
  fst r = inl tt
  /\ P2P.connected (snd r) = true
  /\ P2P.client (snd r) <> None
  /\ P2P.stream (snd r) <> None
  /\ P2P.messageHandler (snd r) = P2P.messageHandler st
  /\ P2P.nodeProcess (snd r) = Some (P2P.nextHandle st)
  /\ exists new,
      P2P.log (snd r) = P2P.log st ++ new
      /\ sleeps new = [1000; 2000] ++ repeat 1000 k
      /\ kills new = [].
Proof.
  intros Hbin Hacc Hearly Hk Hfail Hest. cbv zeta.
  rewrite (p2p_connect_prelude _ _ _ _ Hbin Hacc Hearly).
  unfold P2P.try_catch.
  match goal with
  | |- context [retryLoop nodeOptions attempt 3 0 ?s'] =>
      destruct (p2p_retry_succeeds nodeOptions attempt k 3 0 s' Hk Hfail Hest)
        as (c & s & n & new & -> & Hs & Hkl)
  end.
  cbn [fst snd P2P.client P2P.stream P2P.messageHandler P2P.connected
       P2P.nodeProcess P2P.nextHandle P2P.log].
  split; [reflexivity|]. split; [reflexivity|].
  split; [discriminate|]. split; [discriminate|].
  split; [reflexivity|]. split; [reflexivity|].
  eexists. split; [rewrite <- !app_assoc; reflexivity|].
  cbn [app]. split.
  - cbn [sleeps flat_map app]. fold (sleeps new). rewrite Hs. reflexivity.
  - cbn [kills flat_map app]. fold (kills new). exact Hkl.
Qed.

Lemma p2p_startNode_rejected nodeOptions early why st :
  truthy binary = true ->
  P2P.access host (P2P.findNodeExecutable host) = None ->
  P2P.firstRejection early = Some why ->
  startNode nodeOptions early st
  = (inr why,
     P2P.mkState (P2P.client st) (P2P.stream st) (P2P.messageHandler st)
       (P2P.connected st) (Some (P2P.nextHandle st)) (S (P2P.nextHandle st))
       (P2P.log st
          ++ [P2P.FxSpawn (P2P.nextHandle st) (P2P.findNodeExecutable host)
                (binary
                   :: ["-p"; P2P.showNumber (P2P.grpcPort options parseInt);
                       "-n"; P2P.agentName nodeOptions;
                       "-k"; P2P.privateKeyEnv host])
                (dirname binary)
                (P2P.str_or (P2P.envNODE_PATH host) (dirname binary))])).
Proof.
  intros Hbin Hacc Hearly. unfold P2P.startNode.
  rewrite Hbin, Hacc. cbn [negb].
  unfold P2P.bind, P2P.fresh, P2P.effect, P2P.modify. cbn.
  rewrite Hearly. reflexivity.
Qed.


Lemma p2p_firstExecutable_first pre p post :
  (forall q, In q pre -> P2P.access host q <> None) ->
  P2P.access host p = None ->
  P2P.firstExecutable host (pre ++ p :: post) = Some p.
Proof.
  intros Hpre Hp. induction pre as [|q pre IH]; cbn.
  - rewrite Hp. reflexivity.
  - destruct (P2P.access host q) eqn:E.
    + apply IH. intros q' Hq'. apply Hpre. right. exact Hq'.
    + exfalso. apply (Hpre q); [left; reflexivity | exact E].
Qed.

Lemma p2p_firstExecutable_sound ps p :
  P2P.firstExecutable host ps = Some p ->
  In p ps /\ P2P.access host p = None.
Proof.
  induction ps as [|q ps IH]; cbn; [discriminate|].
  destruct (P2P.access host q) eqn:E.
  - intros H. destruct (IH H). auto.
  - intros [= <-]. auto.
Qed.

Lemma p2p_firstExecutable_none ps :
  (forall q, In q ps -> P2P.access host q <> None) ->
  P2P.firstExecutable host ps = None.
Proof.
  induction ps as [|q ps IH]; cbn; [reflexivity|]. intros H.
  destruct (P2P.access host q) eqn:E.
  - apply IH. intros q' Hq'. apply H. right. exact Hq'.
  - exfalso. apply (H q); [left; reflexivity | exact E].
Qed.

Lemma p2p_possiblePaths_nonempty p :
  In p (P2P.possiblePaths host) -> p <> "".
Proof.
  unfold P2P.possiblePaths. cbn [flat_map]. rewrite !in_app_iff.
  assert (H : forall q : string,
             In p (if truthy q then [q] else []) -> p <> "").
  { intros q. unfold truthy. destruct (String.eqb q "") eqn:E; cbn.
    - intros [].
    - intros [<-|[]]. apply String.eqb_neq. exact E. }
  intros [Hin|[Hin|[Hin|[Hin|[]]]]].
  - destruct (P2P.envNODE host) as [q|]; [exact (H q Hin) | destruct Hin].
  - exact (H (P2P.execPath host) Hin).
  - exact (H "/usr/bin/node" Hin).
  - exact (H "/usr/local/bin/node" Hin).
Qed.

(** X27: where the node executable is looked for.  When [node --version]
    runs, the answer is the bare name [node], whatever else is installed.
    Otherwise it is the first executable one among the [NODE] variable,
    the running executable, [/usr/bin/node] and [/usr/local/bin/node]
    (empty or unset entries skipped), and the bare name [node] again when
    none is executable; the search never fails. *)
Theorem p2p_findNodeExecutable_order :
  (P2P.nodeOnPath host = true -> P2P.findNodeExecutable host = "node")
  /\ (forall pre p post,
         P2P.nodeOnPath host = false ->
         P2P.possiblePaths host = pre ++ p :: post ->
         (forall q, In q pre -> P2P.access host q <> None) ->
         P2P.access host p = None ->
         P2P.findNodeExecutable host = p)
  /\ (P2P.nodeOnPath host = false ->
      (forall q, In q (P2P.possiblePaths host) -> P2P.access host q <> None) ->
      P2P.findNodeExecutable host = "node")
  /\ (P2P.findNodeExecutable host = "node"
      \/ (In (P2P.findNodeExecutable host) (P2P.possiblePaths host)
          /\ P2P.access host (P2P.findNodeExecutable host) = None
          /\ P2P.findNodeExecutable host <> "")).
Proof.
  unfold P2P.findNodeExecutable. split; [|split; [|split]].
  - intros ->. reflexivity.
  - intros pre p post -> Hps Hpre Hp. rewrite Hps.
    rewrite (p2p_firstExecutable_first _ _ _ Hpre Hp). reflexivity.
  - intros -> Hnone. rewrite (p2p_firstExecutable_none _ Hnone).
    reflexivity.
  - destruct (P2P.nodeOnPath host); [left; reflexivity|].
    destruct (P2P.firstExecutable host (P2P.possiblePaths host)) as [p|] eqn:E;
      [|left; reflexivity].
    right. destruct (p2p_firstExecutable_sound _ _ E) as [Hin Hacc].
    split; [exact Hin|]. split; [exact Hacc|].
    apply p2p_possiblePaths_nonempty. exact Hin.
Qed.

(** X28: what the spawned process can do to a pending start.  With the
    binary path set and the executable accessible, the start spawns the
    process and then: an error event rejects it with the error; an exit
    with a code other than 0 (or with no code) rejects it with
    [P2P node exited with code ] followed by the code; an exit with code 0
    is ignored, so that the start still resolves after the settle delay;
    a rejected start leaves the process handle in place and kills
    nothing. *)
Theorem p2p_startNode_process_events nodeOptions (st : P2P.State) :
  truthy binary = true ->
  P2P.access host (P2P.findNodeExecutable host) = None ->
  (forall rest,
      startNode nodeOptions (P2P.ProcExit (Some 0) :: rest) st
      = startNode nodeOptions rest st)
  /\ (forall code rest,
         code <> Some 0 ->
         let r := startNode nodeOptions (P2P.ProcExit code :: rest) st in
         fst r = inr (String.append "P2P node exited with code "
                                    (P2P.showCode code))
         /\ P2P.nodeProcess (snd r) = Some (P2P.nextHandle st)
         /\ kills (P2P.log (snd r)) = kills (P2P.log st))
  /\ (forall message rest,
         let r := startNode nodeOptions (P2P.ProcError message :: rest) st in
         fst r = inr message
         /\ P2P.nodeProcess (snd r) = Some (P2P.nextHandle st)
         /\ kills (P2P.log (snd r)) = kills (P2P.log st))
  /\ (let r := startNode nodeOptions [] st in
      fst r = inl tt
      /\ P2P.nodeProcess (snd r) = Some (P2P.nextHandle st)
      /\ sleeps (P2P.log (snd r)) = sleeps (P2P.log st) ++ [1000]).
Proof.
  intros Hbin Hacc. split; [|split; [|split]].
  - intros rest. unfold P2P.startNode. rewrite Hbin, Hacc. reflexivity.
  - intros code rest Hcode. cbv zeta.
    assert (Hrej : P2P.firstRejection (P2P.ProcExit code :: rest)
                   = Some (String.append "P2P node exited with code "
                                         (P2P.showCode code))).
    { cbn [P2P.firstRejection]. destruct code as [[|z|z]|]; try reflexivity.
      exfalso. apply Hcode. reflexivity. }
    rewrite (p2p_startNode_rejected _ _ _ _ Hbin Hacc Hrej).
    cbn [fst snd P2P.nodeProcess P2P.log].
    split; [reflexivity|]. split; [reflexivity|].
    rewrite kills_app. cbn. apply app_nil_r.
  - intros message rest. cbv zeta.
    rewrite (p2p_startNode_rejected _ (P2P.ProcError message :: rest)
               message _ Hbin Hacc eq_refl).
    cbn [fst snd P2P.nodeProcess P2P.log].
    split; [reflexivity|]. split; [reflexivity|].
    rewrite kills_app. cbn. apply app_nil_r.
  - cbv zeta. rewrite (p2p_startNode_ok _ [] _ Hbin Hacc eq_refl).
    cbn [fst snd P2P.nodeProcess P2P.log].
    split; [reflexivity|]. split; [reflexivity|].
    rewrite sleeps_app. reflexivity.
Qed.

Lemma p2p_retry_returns nodeOptions attempt retries :
  forall k st u st',
    (0 < retries)%nat ->
    retryLoop nodeOptions attempt retries k st = (inl u, st') ->
    P2P.connected st' = true
    /\ P2P.client st' <> None /\ P2P.stream st' <> None.
Proof.
  induction retries as [|r IH]; intros k st u st' Hpos H; [lia|].
  cbn [P2P.retryLoop] in H. unfold P2P.try_catch in H.
  destruct (attempt k) as [|why|why].
  - rewrite p2p_attempt_established in H. injection H as _ <-.
    cbn. repeat split; discriminate.
  - rewrite p2p_attempt_client_throws in H.
    destruct (Nat.eqb r 0) eqn:Er; [discriminate H|].
    apply Nat.eqb_neq in Er. unfold P2P.bind at 1, P2P.effect at 1 in H.
    assert (Hr : (0 < r)%nat) by lia.
    apply (IH _ _ _ _ Hr H).
  - rewrite p2p_attempt_connect_throws in H.
    destruct (Nat.eqb r 0) eqn:Er; [discriminate H|].
    apply Nat.eqb_neq in Er. unfold P2P.bind at 1, P2P.effect at 1 in H.
    assert (Hr : (0 < r)%nat) by lia.
    apply (IH _ _ _ _ Hr H).
Qed.

Lemma p2p_connect_session nodeOptions early loadError attempt st :
  p2p_session_ok (snd (connect nodeOptions early loadError attempt st)).
Proof.
  unfold P2P.connect, P2P.try_catch.
  match goal with
  | |- context [match ?body st with _ => _ end] =>
      destruct (body st) as [[u|e] st1] eqn:Hb
  end.
  - unfold P2P.bind at 1 in Hb.
    destruct (startNode nodeOptions early st) as [[[]|e0] s0];
      [|discriminate Hb].
    unfold P2P.bind at 1, P2P.effect at 1 in Hb.
    unfold P2P.bind at 1, P2P.effect at 1 in Hb.
    unfold P2P.bind at 1 in Hb.
    destruct loadError as [why|]; [discriminate Hb|].
    unfold P2P.ret at 1 in Hb.
    assert (H3 : (0 < 3)%nat) by lia.
    destruct (p2p_retry_returns _ _ _ _ _ _ _ H3 Hb) as (Hc & Hcl & Hs).
    intros _. cbn [snd]. split; assumption.
  - unfold P2P.bind. rewrite p2p_cleanup. unfold P2P.throw. cbn [snd].
    intros H. discriminate H.
Qed.

Lemma p2p_exec_session op st :
  p2p_session_ok st ->
  p2p_session_ok
    (P2P.exec options resolvePackagePath parseInt dirname nullCallMessage
              host op st).
Proof.
  intros Hok.
  destruct op as [nodeOptions early loadError attempt|to body rpcError
                  |answer|handler| |event|]; cbn [P2P.exec].
  - apply p2p_connect_session.
  - unfold p2p_session_ok in *.
    destruct st as [[c|] s h [|] np n l]; cbn in *;
      destruct rpcError; cbn; exact Hok.
  - unfold p2p_session_ok in *.
    destruct st as [[c|] s h [|] np n l]; cbn in *;
      destruct answer; cbn; exact Hok.
  - exact Hok.
  - destruct st as [c [s|] h b [pid|] n l]; cbn; intros H; discriminate H.
  - unfold p2p_session_ok in *.
    destruct st as [c s [h|] b np n l]; destruct event; cbn in *; exact Hok.
  - intros H. discriminate H.
Qed.

(** X29: the session invariant of the streaming client.  Along any run of
    method calls and stream events, whenever [connected] holds the client
    and the stream are present; so a call that passes the [connected] test
    of [sendMessage] always finds a client to call. *)
Theorem p2p_session_invariant ops (st : P2P.State) :
  p2p_session_ok st ->
  p2p_session_ok
    (P2P.run options resolvePackagePath parseInt dirname nullCallMessage
             host ops st).
Proof.
  revert st. induction ops as [|op ops IH]; intros st Hok; cbn.
  - exact Hok.
  - apply IH. apply p2p_exec_session. exact Hok.
Qed.

End P2PFacts.

Lemma p2p_calls_require_connection_witness :
  P2P.sendMessage "null call" "agent-b" "hello" None P2P.initial
  = (inr "Not connected to P2P network", P2P.initial)
  /\ P2P.listAgents (inl []) P2P.initial
     = (inr "Not connected to P2P network", P2P.initial).
Proof.
  destruct (p2p_calls_require_connection "null call" P2P.initial eq_refl)
    as (Hsend & Hlist & _).
  split; [apply Hsend | apply Hlist].
Defined.

Lemma p2p_send_wraps_list_does_not_witness :
  fst (P2P.sendMessage "null call" "agent-b" "hello" (Some "UNAVAILABLE")
         connectedP2P)
  = inr "Failed to send message: UNAVAILABLE"
  /\ fst (P2P.listAgents (inr "UNAVAILABLE") connectedP2P)
     = inr "UNAVAILABLE".
Proof.
  destruct (p2p_send_wraps_list_does_not "null call" connectedP2P 1%nat
              eq_refl eq_refl) as (Hsend & _ & Hlist & _).
  rewrite Hsend, Hlist. split; reflexivity.
Defined.


Lemma p2p_connect_gives_up_after_three_attempts_witness :
  fst (P2P.connect sampleOptions (fun p => p) (fun _ => Some 50051)
         (fun _ => "/srv") sampleHost None [] None
         (fun k => P2P.ConnectThrows
                     (String.append "refused "
                        (NilZero.string_of_uint (Nat.to_uint k))))
         (snd (P2P.onMessage 7%nat P2P.initial)))
  = inr "Failed to connect: refused 2"
  /\ P2P.messageHandler
       (snd (P2P.connect sampleOptions (fun p => p) (fun _ => Some 50051)
               (fun _ => "/srv") sampleHost None [] None
               (fun k => P2P.ConnectThrows
                           (String.append "refused "
                              (NilZero.string_of_uint (Nat.to_uint k))))
               (snd (P2P.onMessage 7%nat P2P.initial))))
     = None.
Proof.
  destruct (p2p_connect_gives_up_after_three_attempts sampleOptions
              (fun p => p) (fun _ => Some 50051) (fun _ => "/srv") sampleHost
              None []
              (fun k => P2P.ConnectThrows
                          (String.append "refused "
                             (NilZero.string_of_uint (Nat.to_uint k))))
              "refused 0" "refused 1" "refused 2"
              (snd (P2P.onMessage 7%nat P2P.initial))
              eq_refl eq_refl eq_refl eq_refl eq_refl eq_refl)
    as (Hres & (_ & _ & Hh & _) & _).
  split; [exact Hres | exact Hh].
Defined.

Lemma p2p_connect_stops_at_the_first_success_witness :
  let attempt := fun k : nat =>
                   match k with
                   | O => P2P.ConnectThrows "refused"
                   | _ => P2P.Established
                   end in
  let r := P2P.connect sampleOptions (fun p => p) (fun _ => Some 50051)
             (fun _ => "/srv") sampleHost None [] None attempt P2P.initial in
  fst r = inl tt /\ P2P.connected (snd r) = true
  /\ sleeps (P2P.log (snd r)) = [1000; 2000; 1000].
Proof.
  intros attempt r.
  destruct (p2p_connect_stops_at_the_first_success sampleOptions
              (fun p => p) (fun _ => Some 50051) (fun _ => "/srv") sampleHost
              None [] attempt 1%nat P2P.initial
              eq_refl eq_refl eq_refl) as (Hres & Hconn & _).
  - lia.
  - intros i Hi. assert (i = 0%nat) as -> by lia. discriminate.
  - reflexivity.
  - split; [exact Hres|]. split; [exact Hconn | reflexivity].
Defined.


Lemma p2p_findNodeExecutable_order_witness :
  P2P.findNodeExecutable sampleHost = "node"
  /\ P2P.findNodeExecutable customHost = "/custom/node".
Proof.
  split.
  - exact (proj1 (p2p_findNodeExecutable_order sampleHost) eq_refl).
  - refine (proj1 (proj2 (p2p_findNodeExecutable_order customHost))
                  [] "/custom/node"
                  ["/opt/bun/bin/bun"; "/usr/bin/node"; "/usr/local/bin/node"]
                  eq_refl eq_refl _ eq_refl).
    intros q [].
Defined.

Lemma p2p_startNode_process_events_witness :
  fst (P2P.startNode sampleOptions (fun p => p) (fun _ => Some 50051)
         (fun _ => "/srv") sampleHost None [P2P.ProcExit None] P2P.initial)
  = inr "P2P node exited with code null"
  /\ fst (P2P.startNode sampleOptions (fun p => p) (fun _ => Some 50051)
            (fun _ => "/srv") sampleHost None
            [P2P.ProcExit (Some 0); P2P.ProcExit (Some 137)] P2P.initial)
     = inr "P2P node exited with code 137".
Proof.
  destruct (p2p_startNode_process_events sampleOptions (fun p => p)
              (fun _ => Some 50051) (fun _ => "/srv") sampleHost None
              P2P.initial eq_refl eq_refl) as (Hzero & Hexit & _).
  split.
  - refine (proj1 (Hexit None [] _)). discriminate.
  - rewrite Hzero. refine (proj1 (Hexit (Some 137) [] _)). discriminate.
Defined.

Lemma p2p_session_invariant_witness :
  p2p_session_ok
    (P2P.run sampleOptions (fun p => p) (fun _ => Some 50051)
       (fun _ => "/srv") "null call" sampleHost
       [P2P.OpOnMessage 7%nat;
        P2P.OpConnect None [] None (fun _ => P2P.Established);
        P2P.OpData (P2P.Incoming "m1" "agent-b" "hello" 100);
        P2P.OpStreamError;
        P2P.OpSendMessage "agent-b" "hello" None]
       P2P.initial).
Proof.
  apply p2p_session_invariant. intros H. discriminate H.
Defined.
